(** * go_bot: upstream balance ledger, daily settlement and low-balance watcher

    A shallow embedding of
    - [internal/telegram/repository/upstream_balance.go] (the Mongo ledger store),
    - the upstream balance service ([Add], [Subtract], [SetMinBalance],
      [SettleDaily] and its parsing helpers),
    - [internal/telegram/upstream_balance_watcher.go] (alert hysteresis and
      hourly rate limit),
    followed by the properties of the specification that are stated about them.

    Conventions.
    - [float64] is Rocq's primitive binary64 [float]; Go's [==], [<], [<=],
      [+], [*], [/] and unary [-] are [PrimFloat.eqb], [ltb], [leb], [add],
      [mul], [div] and [opp].
    - [int64] and [int] values are [Z]; the code does no arithmetic on them
      except [sentCount++], which runs only below a limit that is itself an
      [int], so no wrap-around can occur.
    - a [time.Time] is the instant it denotes, in nanoseconds since the zero
      [Time]; [time.Now()] is an explicit argument [now].
    - a Mongo collection with a unique index on [chat_id] is a [gmap] keyed
      by the chat id; the append-only log collection is a list in insertion
      order.  A transaction that returns an error leaves the store as it was.
      Driver and network failures are outside the model: every theorem is
      about runs in which the store answers.
    - [context.Context] arguments are dropped (no cancellation is modelled). *)

From Stdlib Require Import ZArith Floats String Ascii List Bool Lia.
From stdpp Require Import gmap strings list relations pretty.

Local Open Scope Z_scope.

(** ** Go library functions used by the code *)

Module Go.

(** [(T, error)] results. *)
Inductive result (A : Type) : Type :=
| Ok (a : A)
| Err (e : string).
Arguments Ok {A} a.
Arguments Err {A} e.

(** *** package time *)

Definition Time : Type := Z.
Definition Duration : Type := Z.

Definition Second : Duration := 1000000000.
Definition Minute : Duration := 60 * Second.
Definition Hour : Duration := 60 * Minute.

Definition maxDuration : Duration := 2 ^ 63 - 1.
Definition minDuration : Duration := - 2 ^ 63.

(** The zero value of [time.Time]. *)
Definition zeroTime : Time := 0.

Definition IsZero (t : Time) : bool := t =? 0.

(** [t.Sub(u)]: the difference, saturated to the range of [Duration]. *)
Definition Sub (t u : Time) : Duration :=
  let d := t - u in
  if maxDuration <? d then maxDuration
  else if d <? minDuration then minDuration
  else d.

(** [t.Add(d)]. *)
Definition Add (t : Time) (d : Duration) : Time := t + d.

(** *** package strings *)

Definition byte (n : nat) : ascii := ascii_of_nat n.

(** ASCII white space: tab, line feed, vertical tab, form feed, carriage
    return, space. *)
Definition isSpace1 (c : ascii) : bool :=
  let n := nat_of_ascii c in
  ((9 <=? n) && (n <=? 13))%nat || (n =? 32)%nat.

(** U+0085 and U+00A0 in UTF-8. *)
Definition isSpace2 (c1 c2 : ascii) : bool :=
  let n1 := nat_of_ascii c1 in
  let n2 := nat_of_ascii c2 in
  (n1 =? 194)%nat && ((n2 =? 133) || (n2 =? 160))%nat.

(** U+1680, U+2000..U+200A, U+2028, U+2029, U+202F, U+205F and U+3000 in
    UTF-8: the remaining code points of [unicode.IsSpace]. *)
Definition isSpace3 (c1 c2 c3 : ascii) : bool :=
  let n1 := nat_of_ascii c1 in
  let n2 := nat_of_ascii c2 in
  let n3 := nat_of_ascii c3 in
  ((n1 =? 225) && (n2 =? 154) && (n3 =? 128))%nat
  || ((n1 =? 226) && (n2 =? 128)
      && (((128 <=? n3) && (n3 <=? 138)) || (n3 =? 168) || (n3 =? 169)
          || (n3 =? 175)))%nat
  || ((n1 =? 226) && (n2 =? 129) && (n3 =? 159))%nat
  || ((n1 =? 227) && (n2 =? 128) && (n3 =? 128))%nat.

Fixpoint trimLeft (s : string) : string :=
  match s with
  | EmptyString => s
  | String c1 s1 =>
      if isSpace1 c1 then trimLeft s1
      else
        match s1 with
        | EmptyString => s
        | String c2 s2 =>
            if isSpace2 c1 c2 then trimLeft s2
            else
              match s2 with
              | EmptyString => s
              | String c3 s3 =>
                  if isSpace3 c1 c2 c3 then trimLeft s3 else s
              end
        end
  end.

(** The same scan from the end, on the reversed bytes. *)
Fixpoint trimLeftRev (s : string) : string :=
  match s with
  | EmptyString => s
  | String c1 s1 =>
      if isSpace1 c1 then trimLeftRev s1
      else
        match s1 with
        | EmptyString => s
        | String c2 s2 =>
            if isSpace2 c2 c1 then trimLeftRev s2
            else
              match s2 with
              | EmptyString => s
              | String c3 s3 =>
                  if isSpace3 c3 c2 c1 then trimLeftRev s3 else s
              end
        end
  end.

Definition revString (s : string) : string :=
  string_of_list_ascii (List.rev (list_ascii_of_string s)).

(** [strings.TrimSpace]. *)
Definition TrimSpace (s : string) : string :=
  revString (trimLeftRev (revString (trimLeft s))).

Definition HasSuffix (s suffix : string) : bool :=
  let n := String.length s in
  let k := String.length suffix in
  (k <=? n)%nat && String.eqb (String.substring (n - k) k s) suffix.

(** [strings.TrimSuffix]. *)
Definition TrimSuffix (s suffix : string) : string :=
  if HasSuffix s suffix
  then String.substring 0 (String.length s - String.length suffix) s
  else s.

(** *** strconv.ParseFloat and the calendar functions of package time

    These are not code of the repository.  The development is parametric
    in them: [ParseFloat s] is [strconv.ParseFloat(s, 64)], [None] when
    the returned error is not nil; [Format t layout] is [t.Format(layout)];
    [Parse layout value] is [time.Parse(layout, value)], [None] on error;
    [Midnight t] is
    [time.Date(t.Year(), t.Month(), t.Day(), 0, 0, 0, 0, t.Location())]. *)
Class Library : Type := {
  ParseFloat : string -> option float;
  Format : Time -> string -> string;
  Parse : string -> string -> option Time;
  Midnight : Time -> Time
}.

Definition RFC3339 : string := "2006-01-02T15:04:05Z07:00".
Definition RFC3339Nano : string := "2006-01-02T15:04:05.999999999Z07:00".

End Go.

(** ** package models *)

Module UpstreamBalance.
(** The store-assigned [_id] is never read by the code and is left out. *)
Record t : Type := mk {
  ChatID : Z;
  Balance : float;
  MinBalance : float;
  AlertLimitPerHour : Z;
  CreatedAt : Go.Time;
  UpdatedAt : Go.Time
}.
End UpstreamBalance.

Module UpstreamBalanceLog.
Record t : Type := mk {
  ChatID : Z;
  UserID : Z;
  Delta : float;
  BalanceAfter : float;
  Type_ : string;
  Remark : string;
  OperationID : string;
  CreatedAt : Go.Time
}.
End UpstreamBalanceLog.

Module UpstreamSettlementItem.
Record t : Type := mk {
  InterfaceID : string;
  InterfaceName : string;
  RatePercent : float;
  GrossAmount : float;
  Deduction : float
}.
End UpstreamSettlementItem.

(** The fields of [models.InterfaceBinding] and [models.Group] that the
    settlement reads. *)
Module InterfaceBinding.
Record t : Type := mk {
  ID : string;
  Name : string;
  Rate : string
}.
End InterfaceBinding.

Module Group.
Record t : Type := mk {
  TelegramID : Z;
  InterfaceBindings : list InterfaceBinding.t
}.
End Group.

(** ** package repository: [MongoUpstreamBalanceRepository] *)

Module repository.

Import Go.

Record Store : Type := mkStore {
  balanceColl : gmap Z UpstreamBalance.t;
  balanceLogsColl : list UpstreamBalanceLog.t
}.

Definition emptyStore : Store := mkStore ∅ [].

Definition errBalanceNotFound : string :=
  "balance not found for existing operation".

(** [GetBalance]: [nil, nil] when there is no document. *)
Definition GetBalance (s : Store) (chatID : Z) : option UpstreamBalance.t :=
  balanceColl s !! chatID.

(** The filter [{chat_id, operation_id}] on the log collection. *)
Definition matchesOperation (chatID : Z) (operationID : string)
    (l : UpstreamBalanceLog.t) : bool :=
  (UpstreamBalanceLog.ChatID l =? chatID)
  && String.eqb (UpstreamBalanceLog.OperationID l) operationID.

Definition findLog (s : Store) (chatID : Z) (operationID : string)
    : option UpstreamBalanceLog.t :=
  List.find (matchesOperation chatID operationID) (balanceLogsColl s).

(** [FindOneAndUpdate] with [$inc balance], [$set updated_at],
    [$setOnInsert], upsert, returning the document after the update.  On
    insert [$inc] creates the field with the given value. *)
Definition incBalance (now : Time) (chatID : Z) (delta : float)
    (old : option UpstreamBalance.t) : UpstreamBalance.t :=
  match old with
  | Some b =>
      UpstreamBalance.mk (UpstreamBalance.ChatID b)
        (UpstreamBalance.Balance b + delta)%float
        (UpstreamBalance.MinBalance b)
        (UpstreamBalance.AlertLimitPerHour b)
        (UpstreamBalance.CreatedAt b) now
  | None => UpstreamBalance.mk chatID delta 0%float 0 now now
  end.

(** The body of the transaction after the duplicate check: update the
    balance document, append the log entry. *)
Definition applyDelta (now : Time) (s : Store) (chatID userID : Z)
    (delta : float) (entryType remark operationID : string)
    : result UpstreamBalance.t * Store :=
  let balance := incBalance now chatID delta (balanceColl s !! chatID) in
  let logEntry :=
    UpstreamBalanceLog.mk chatID userID delta
      (UpstreamBalance.Balance balance) entryType remark operationID now in
  (Ok balance,
   mkStore (<[chatID := balance]> (balanceColl s))
           (balanceLogsColl s ++ [logEntry])).

Definition AdjustBalance (now : Time) (s : Store) (chatID userID : Z)
    (delta : float) (entryType remark operationID : string)
    : result UpstreamBalance.t * Store :=
  if negb (String.eqb operationID "") then
    match findLog s chatID operationID with
    | Some _ =>
        match balanceColl s !! chatID with
        | Some balance => (Ok balance, s)
        | None => (Err errBalanceNotFound, s)
        end
    | None => applyDelta now s chatID userID delta entryType remark operationID
    end
  else applyDelta now s chatID userID delta entryType remark operationID.

Definition setMin (now : Time) (chatID : Z) (min : float)
    (old : option UpstreamBalance.t) : UpstreamBalance.t :=
  match old with
  | Some b =>
      UpstreamBalance.mk (UpstreamBalance.ChatID b)
        (UpstreamBalance.Balance b) min
        (UpstreamBalance.AlertLimitPerHour b)
        (UpstreamBalance.CreatedAt b) now
  | None => UpstreamBalance.mk chatID 0%float min 0 now now
  end.

Definition SetMinBalance (now : Time) (s : Store) (chatID : Z) (min : float)
    : result UpstreamBalance.t * Store :=
  let balance := setMin now chatID min (balanceColl s !! chatID) in
  (Ok balance,
   mkStore (<[chatID := balance]> (balanceColl s)) (balanceLogsColl s)).

Definition setLimit (now : Time) (chatID : Z) (limit : Z)
    (old : option UpstreamBalance.t) : UpstreamBalance.t :=
  match old with
  | Some b =>
      UpstreamBalance.mk (UpstreamBalance.ChatID b)
        (UpstreamBalance.Balance b) (UpstreamBalance.MinBalance b) limit
        (UpstreamBalance.CreatedAt b) now
  | None => UpstreamBalance.mk chatID 0%float 0%float limit now now
  end.

Definition SetAlertLimit (now : Time) (s : Store) (chatID : Z) (limit : Z)
    : result UpstreamBalance.t * Store :=
  let balance := setLimit now chatID limit (balanceColl s !! chatID) in
  (Ok balance,
   mkStore (<[chatID := balance]> (balanceColl s)) (balanceLogsColl s)).

(** [ListBalances]: every balance document. *)
Definition ListBalances (s : Store) : list UpstreamBalance.t :=
  (map_to_list (balanceColl s)).*2.

End repository.

(** ** package paymentservice: the billing collaborator

    Only its interface is used.  Of a summary the settlement reads the items
    and, of each item, the date and the gross amount, both strings; a summary
    and an item are pointers and may be nil. *)

Module paymentservice.

Record SummaryByDayItem : Type := mkItem {
  Date : string;
  GrossAmount : string
}.

Record SummaryByPZID : Type := mkSummary {
  Items : list (option SummaryByDayItem)
}.

Class Service : Type := {
  GetSummaryByDayByPZID :
    string -> Go.Time -> Go.Time -> Go.result (option SummaryByPZID)
}.

End paymentservice.

(** ** package service: [upstreamBalanceService] *)

Module service.

Import Go.

Definition upstreamLogTypeManualAdd : string := "manual_add".
Definition upstreamLogTypeManualSubtract : string := "manual_subtract".
Definition upstreamLogTypeDaily : string := "daily_settlement".
Definition upstreamLogTypeThreshold : string := "set_min_balance".

Definition dayLayout : string := "2006-01-02".

Record SettlementResult : Type := mkResult {
  Balance : UpstreamBalance.t;
  Items : list UpstreamSettlementItem.t;
  Deduction : float;
  Target : Time
}.

Definition shouldWarn (balance : option UpstreamBalance.t) : bool :=
  match balance with
  | None => false
  | Some b =>
      if (UpstreamBalance.MinBalance b <=? 0)%float then false
      else (UpstreamBalance.Balance b <? UpstreamBalance.MinBalance b)%float
  end.

(** [adjust] returns [(balance, shouldWarn, err)].  The source passes the
    repository six arguments, the last one the empty remark, and no
    operation ID: the repository's [operationID] is the empty string. *)
Definition adjust (now : Time) (s : repository.Store) (chatID userID : Z)
    (delta : float) (entryType : string)
    : (option UpstreamBalance.t * bool * option string) * repository.Store :=
  if (delta =? 0)%float then
    let balance := repository.GetBalance s chatID in
    ((balance, shouldWarn balance, None), s)
  else
    match repository.AdjustBalance now s chatID userID delta entryType "" "" with
    | (Err e, s') => ((None, false, Some e), s')
    | (Ok updated, s') => ((Some updated, shouldWarn (Some updated), None), s')
    end.

Definition Add (now : Time) (s : repository.Store) (chatID userID : Z)
    (amount : float) :=
  adjust now s chatID userID amount upstreamLogTypeManualAdd.

Definition Subtract (now : Time) (s : repository.Store) (chatID userID : Z)
    (amount : float) :=
  adjust now s chatID userID (- abs amount)%float upstreamLogTypeManualSubtract.

Definition Get (s : repository.Store) (chatID : Z) : option UpstreamBalance.t :=
  repository.GetBalance s chatID.

Section WithLibrary.

Context {lib : Library} {pay : paymentservice.Service}.

(** [sprintf2f] is [fmt.Sprintf] with the verb [%.2f]; only the remark of
    the audit entry depends on it. *)
Variable sprintf2f : float -> string.

(** [SetMinBalance]: the repository update, then a zero-delta ledger
    entry whose result and error are both discarded.  [now] and [now']
    are the clock readings of the two repository calls. *)
Definition SetMinBalance (now now' : Time) (s : repository.Store)
    (chatID : Z) (min : float)
    : result UpstreamBalance.t * repository.Store :=
  match repository.SetMinBalance now s chatID min with
  | (Err e, s1) => (Err e, s1)
  | (Ok updated, s1) =>
      let '(_, s2) :=
        repository.AdjustBalance now' s1 chatID 0 0%float
          upstreamLogTypeThreshold
          ("set_min_balance=" ++ sprintf2f min) "" in
      (Ok updated, s2)
  end.

Definition parseRatePercent (rate : string) : float :=
  let clean := TrimSuffix (TrimSpace rate) "%" in
  if String.eqb clean "" then 0%float
  else
    match ParseFloat clean with
    | None => 0%float
    | Some value => value
    end.

Fixpoint firstParse (layouts : list string) (value : string) : option Time :=
  match layouts with
  | [] => None
  | layout :: rest =>
      match Parse layout value with
      | Some t => Some t
      | None => firstParse rest value
      end
  end.

Definition normalizeSummaryDate (raw : string) : string :=
  let trimmed := TrimSpace raw in
  if String.eqb trimmed "" then ""
  else
    let layouts :=
      [ "2006-01-02"; "2006-01-02 15:04:05"; "2006/01/02";
        "2006/01/02 15:04:05"; RFC3339; RFC3339Nano ] in
    match firstParse layouts trimmed with
    | Some t => Format t dayLayout
    | None =>
        if (10 <=? String.length trimmed)%nat then
          let candidate := String.substring 0 10 trimmed in
          match Parse "2006-01-02" candidate with
          | Some t => Format t dayLayout
          | None =>
              match Parse "2006/01/02" candidate with
              | Some t => Format t dayLayout
              | None => ""
              end
          end
        else ""
    end.

(** The loop of [parseAmountFromSummary]: the first non-nil item of the
    target day decides. *)
Fixpoint amountOfItems (items : list (option paymentservice.SummaryByDayItem))
    (dateStr : string) : float :=
  match items with
  | [] => 0%float
  | None :: rest => amountOfItems rest dateStr
  | Some item :: rest =>
      if negb (String.eqb (normalizeSummaryDate (paymentservice.Date item)) dateStr)
      then amountOfItems rest dateStr
      else
        match ParseFloat (TrimSpace (paymentservice.GrossAmount item)) with
        | None => 0%float
        | Some amount => amount
        end
  end.

Definition parseAmountFromSummary
    (summary : option paymentservice.SummaryByPZID) (targetDate : Time) : float :=
  match summary with
  | None => 0%float
  | Some sm => amountOfItems (paymentservice.Items sm) (Format targetDate dayLayout)
  end.

Definition billingError (id e : string) : string :=
  "查询接口 " ++ id ++ " 账单失败: " ++ e.

Definition settleBinding (binding : InterfaceBinding.t)
    (start end_ targetDate : Time) : result UpstreamSettlementItem.t :=
  match paymentservice.GetSummaryByDayByPZID (InterfaceBinding.ID binding) start end_ with
  | Err e => Err (billingError (InterfaceBinding.ID binding) e)
  | Ok summary =>
      let grossAmount := parseAmountFromSummary summary targetDate in
      let rate := parseRatePercent (InterfaceBinding.Rate binding) in
      let deduction := (grossAmount * rate / 100)%float in
      Ok (UpstreamSettlementItem.mk (InterfaceBinding.ID binding)
            (InterfaceBinding.Name binding) rate grossAmount deduction)
  end.

(** The loop of [SettleDaily] over the bindings, with its two
    accumulators. *)
Fixpoint settleLoop (bindings : list InterfaceBinding.t)
    (start end_ targetDate : Time)
    (items : list UpstreamSettlementItem.t) (totalDeduction : float)
    : result (list UpstreamSettlementItem.t * float) :=
  match bindings with
  | [] => Ok (items, totalDeduction)
  | binding :: rest =>
      match settleBinding binding start end_ targetDate with
      | Err e => Err e
      | Ok item =>
          settleLoop rest start end_ targetDate (items ++ [item])
            (totalDeduction + UpstreamSettlementItem.Deduction item)%float
      end
  end.

Definition errNoBindings : string := "当前群未绑定任何接口".

Definition SettleDaily (now : Time) (s : repository.Store)
    (group : Group.t) (targetDate : Time)
    : result SettlementResult * repository.Store :=
  let bindings := Group.InterfaceBindings group in
  if (List.length bindings =? 0)%nat then (Err errNoBindings, s)
  else
    let start := Midnight targetDate in
    let end_ := Go.Add start (24 * Hour - Second) in
    match settleLoop bindings start end_ targetDate [] 0%float with
    | Err e => (Err e, s)
    | Ok (items, totalDeduction) =>
        match repository.AdjustBalance now s (Group.TelegramID group) 0
                (- totalDeduction)%float upstreamLogTypeDaily
                (Format targetDate dayLayout) "" with
        | (Err e, s') => (Err e, s')
        | (Ok balance, s') =>
            (Ok (mkResult balance items totalDeduction targetDate), s')
        end
    end.

End WithLibrary.

End service.

(** ** package telegram: [upstreamBalanceWatcher] *)

Module telegram.

Import Go.

Definition defaultAlertLimitPerHour : Z := 3.
Definition periodicBalanceScan : Duration := 10 * Minute.

Record balanceAlertState : Type := mkState {
  low : bool;
  windowStart : Time;
  sentCount : Z
}.

(** [&balanceAlertState{}]. *)
Definition newState : balanceAlertState := mkState false zeroTime 0.

(** [evaluateBalance] on the state map [w.states]; the second component
    lists the balances handed to [sendLowBalanceAlert] (none or one). *)
Definition evaluateBalance (now : Time) (states : gmap Z balanceAlertState)
    (balance : option UpstreamBalance.t)
    : gmap Z balanceAlertState * list UpstreamBalance.t :=
  match balance with
  | None => (states, [])
  | Some b =>
      if (UpstreamBalance.MinBalance b <=? 0)%float then (states, [])
      else
        let isLow := (UpstreamBalance.Balance b <? UpstreamBalance.MinBalance b)%float in
        let chat := UpstreamBalance.ChatID b in
        let state := default newState (states !! chat) in
        let state :=
          if IsZero (windowStart state) || (Hour <=? Sub now (windowStart state))
          then mkState (low state) now 0
          else state in
        if negb isLow then
          (<[chat := mkState false (windowStart state) (sentCount state)]> states, [])
        else if low state then (<[chat := state]> states, [])
        else
          let limit :=
            if UpstreamBalance.AlertLimitPerHour b <=? 0
            then defaultAlertLimitPerHour
            else UpstreamBalance.AlertLimitPerHour b in
          if limit <=? sentCount state then (<[chat := state]> states, [])
          else
            (<[chat := mkState true (windowStart state) (sentCount state + 1)]> states,
             [b])
  end.

(** One observation: the clock reading of the evaluation and the balance
    evaluated. *)
Definition observation : Type := (Time * option UpstreamBalance.t)%type.

(** [scanBalances] evaluates every listed balance in turn; so does the
    [run] loop for the values it receives on [w.changes]. *)
Fixpoint evaluateAll (obs : list observation) (states : gmap Z balanceAlertState)
    : gmap Z balanceAlertState * list UpstreamBalance.t :=
  match obs with
  | [] => (states, [])
  | (now, balance) :: rest =>
      let '(states1, sent1) := evaluateBalance now states balance in
      let '(states2, sent2) := evaluateAll rest states1 in
      (states2, sent1 ++ sent2)
  end.

(** What the [run] loop selects on: a value received on [w.changes], or a
    tick of the scan timer together with the answer of [List] (an error
    skips the scan). *)
Inductive event : Type :=
| Changed (now : Time) (balance : option UpstreamBalance.t)
| Tick (listed : result (list observation)).

Definition handle (e : event) (states : gmap Z balanceAlertState)
    : gmap Z balanceAlertState * list UpstreamBalance.t :=
  match e with
  | Changed now balance => evaluateBalance now states balance
  | Tick (Err _) => (states, [])
  | Tick (Ok obs) => evaluateAll obs states
  end.

Fixpoint run (events : list event) (states : gmap Z balanceAlertState)
    : gmap Z balanceAlertState * list UpstreamBalance.t :=
  match events with
  | [] => (states, [])
  | e :: rest =>
      let '(states1, sent1) := handle e states in
      let '(states2, sent2) := run rest states1 in
      (states2, sent1 ++ sent2)
  end.

End telegram.

(** ** The Ledger Store operations that are not in the source

    The watcher subscribes to [upstreamBalanceService.BalanceChanges()] and
    the command handlers call a [SetAlertLimit] of the service; the service
    that provides them is not among the source files (the service file at
    hand declares neither).  They are modelled from the specification, on
    top of the repository, which is in the source. *)

Module LedgerStore.

Import Go.

(** Modelled from the spec: the send on the change stream, which is missing
    from the source.  "Publication must not block or fail the transactional
    write (fire-and-forget, best-effort)", over a bounded buffer: the
    record is enqueued when the buffer has room and dropped otherwise; the
    sender does not wait. *)
Definition offer (capacity : nat) (stream : list UpstreamBalance.t)
    (b : UpstreamBalance.t) : list UpstreamBalance.t :=
  if (length stream <? capacity)%nat then stream ++ [b] else stream.

(** An idempotent replay: the operation ID is not empty and the ledger
    holds an entry of the entity under it. *)
Definition isReplay (s : repository.Store) (chatID : Z) (operationID : string) : bool :=
  negb (String.eqb operationID "")
  && match repository.findLog s chatID operationID with
     | Some _ => true
     | None => false
     end.

(** Modelled from the spec: [Adjust] with its side effect, the publishing
    service being missing from the source.  The write is the repository's
    [AdjustBalance]; "every successful Adjust (... idempotent no-op
    re-resolution is exempt) must publish a balance-change event for the
    Balance Watcher".  The third component is the change stream after the
    call. *)
Definition Adjust (capacity : nat) (now : Time) (s : repository.Store)
    (stream : list UpstreamBalance.t) (chatID actorID : Z) (delta : float)
    (entryType remark operationID : string)
    : result UpstreamBalance.t * repository.Store * list UpstreamBalance.t :=
  match repository.AdjustBalance now s chatID actorID delta entryType remark operationID with
  | (Ok updated, s') =>
      (Ok updated, s',
       if isReplay s chatID operationID then stream else offer capacity stream updated)
  | (Err e, s') => (Err e, s', stream)
  end.


(** Modelled from the spec: [SetAlertLimit] of the service, which is missing
    from the source (the handler [handleUpstreamAlertLimit] calls it).  It
    "persists the field and appends a zero-delta ledger entry of type
    threshold-change for audit, using upsert semantics identical to
    Adjust": the repository's [SetAlertLimit], then the audit entry, written
    as the service's [SetMinBalance] of the source writes its own, with the
    system as actor and the result of the write discarded.  [now] and
    [now'] are the clock readings of the two repository calls. *)
Definition SetAlertLimit (now now' : Time) (s : repository.Store)
    (chatID : Z) (limit : Z) (remark : string)
    : result UpstreamBalance.t * repository.Store :=
  match repository.SetAlertLimit now s chatID limit with
  | (Err e, s1) => (Err e, s1)
  | (Ok updated, s1) =>
      let '(_, s2) :=
        repository.AdjustBalance now' s1 chatID 0 0%float
          service.upstreamLogTypeThreshold remark "" in
      (Ok updated, s2)
  end.

End LedgerStore.

(** ** A concrete library and billing collaborator for worked examples

    [Library] is instantiated on a fragment of what Go's functions accept,
    on which the instance gives Go's answer:
    - [ParseFloat]: [nan], or an optional sign followed by [inf] or
      [infinity], in any letter case; or an optional sign followed by a
      plain decimal numeral of at most 15 digits, which Go converts exactly
      as done here (the integer of the digits divided by a power of ten,
      both exact in binary64).  Numerals with an exponent, in hexadecimal,
      with underscores or longer are answered [None] here, so the instance
      is only applied to the others;
    - [Parse]: the layouts [2006-01-02] and [2006/01/02] on a ten-character
      date; the instance is only applied to values of that shape, which the
      four longer layouts of [normalizeSummaryDate] reject in Go as well;
    - [Format]: the layout [2006-01-02] for years 0 to 9999;
    - every time is in UTC. *)

Module Sample.

Import Go.

Definition isDigit (c : ascii) : bool :=
  let n := nat_of_ascii c in ((48 <=? n) && (n <=? 57))%nat.

Definition digitVal (c : ascii) : Z := Z.of_nat (nat_of_ascii c) - 48.

Definition lower (c : ascii) : ascii :=
  let n := nat_of_ascii c in
  if ((65 <=? n) && (n <=? 90))%nat then ascii_of_nat (n + 32) else c.

Definition lowerString (s : string) : string :=
  string_of_list_ascii (List.map lower (list_ascii_of_string s)).

(** Reads a run of digits: the number read so far, how many digits, and
    the rest. *)
Fixpoint readDigits (s : string) (acc : Z) (count : nat) : Z * nat * string :=
  match s with
  | String c rest =>
      if isDigit c then readDigits rest (10 * acc + digitVal c) (S count)
      else (acc, count, s)
  | EmptyString => (acc, count, s)
  end.

Definition floatOfZ (n : Z) : float := of_uint63 (Uint63.of_Z n).

Definition unsignedFloat (s : string) : option float :=
  let l := lowerString s in
  if String.eqb l "inf" || String.eqb l "infinity" then Some infinity
  else
    let '(whole, n1, rest) := readDigits s 0 0%nat in
    match rest with
    | EmptyString =>
        if ((1 <=? n1) && (n1 <=? 15))%nat then Some (floatOfZ whole) else None
    | String "." frac =>
        let '(mant, n2, rest2) := readDigits frac whole 0%nat in
        match rest2 with
        | EmptyString =>
            if ((1 <=? n1 + n2) && (n1 + n2 <=? 15))%nat
            then Some (floatOfZ mant / floatOfZ (10 ^ Z.of_nat n2))%float
            else None
        | _ => None
        end
    | _ => None
    end.

Definition sampleParseFloat (s : string) : option float :=
  if String.eqb (lowerString s) "nan" then Some nan
  else
    match s with
    | String "+" rest => unsignedFloat rest
    | String "-" rest =>
        match unsignedFloat rest with
        | Some x => Some (- x)%float
        | None => None
        end
    | _ => unsignedFloat s
    end.

(** The proleptic Gregorian calendar, days counted from 0001-01-01. *)
Definition isLeap (y : Z) : bool :=
  ((y mod 4 =? 0) && negb (y mod 100 =? 0)) || (y mod 400 =? 0).

Definition daysIn (y m : Z) : Z :=
  if m =? 2 then (if isLeap y then 29 else 28)
  else if (m =? 4) || (m =? 6) || (m =? 9) || (m =? 11) then 30
  else 31.

Definition daysBeforeYear (y : Z) : Z :=
  365 * (y - 1) + (y - 1) / 4 - (y - 1) / 100 + (y - 1) / 400.

Definition daysBeforeMonth (y m : Z) : Z :=
  List.nth (Z.to_nat (m - 1))
    [0; 31; 59; 90; 120; 151; 181; 212; 243; 273; 304; 334] 0
  + (if isLeap y && (2 <? m) then 1 else 0).

Definition nanosPerDay : Z := 24 * Hour.

Definition dateToTime (y m d : Z) : Time :=
  (daysBeforeYear y + daysBeforeMonth y m + (d - 1)) * nanosPerDay.

(** Year, month and day of an instant. *)
Definition civil (t : Time) : Z * Z * Z :=
  let z := t / nanosPerDay + 306 in
  let era := z / 146097 in
  let doe := z - era * 146097 in
  let yoe := (doe - doe / 1460 + doe / 36524 - doe / 146096) / 365 in
  let doy := doe - (365 * yoe + yoe / 4 - yoe / 100) in
  let mp := (5 * doy + 2) / 153 in
  let d := doy - (153 * mp + 2) / 5 + 1 in
  let m := if mp <? 10 then mp + 3 else mp - 9 in
  (yoe + era * 400 + (if m <=? 2 then 1 else 0), m, d).

Definition digitChar (n : Z) : ascii := ascii_of_nat (Z.to_nat (n mod 10) + 48).

Definition pad2 (n : Z) : string :=
  String (digitChar (n / 10)) (String (digitChar n) EmptyString).

Definition pad4 (n : Z) : string :=
  String (digitChar (n / 1000)) (String (digitChar (n / 100)) (pad2 n)).

Definition sampleFormat (t : Time) (layout : string) : string :=
  if String.eqb layout "2006-01-02" then
    let '(y, m, d) := civil t in pad4 y ++ "-" ++ pad2 m ++ "-" ++ pad2 d
  else "".

(** A ten-character date with the separator [sep]. *)
Definition parseDate (sep : ascii) (value : string) : option Time :=
  match list_ascii_of_string value with
  | [y1; y2; y3; y4; s1; m1; m2; s2; d1; d2] =>
      if forallb isDigit [y1; y2; y3; y4; m1; m2; d1; d2]
         && Ascii.eqb s1 sep && Ascii.eqb s2 sep
      then
        let y := 1000 * digitVal y1 + 100 * digitVal y2 + 10 * digitVal y3 + digitVal y4 in
        let m := 10 * digitVal m1 + digitVal m2 in
        let d := 10 * digitVal d1 + digitVal d2 in
        if (1 <=? m) && (m <=? 12) && (1 <=? d) && (d <=? daysIn y m)
        then Some (dateToTime y m d)
        else None
      else None
  | _ => None
  end.

Definition sampleParse (layout value : string) : option Time :=
  if String.eqb layout "2006-01-02" then parseDate "-" value
  else if String.eqb layout "2006/01/02" then parseDate "/" value
  else None.

Definition sampleMidnight (t : Time) : Time := t - t mod nanosPerDay.

Definition library : Library :=
  {| ParseFloat := sampleParseFloat;
     Format := sampleFormat;
     Parse := sampleParse;
     Midnight := sampleMidnight |}.

(** The scenario of the specification: balance 500 and threshold 200. *)
Definition funded : repository.Store :=
  repository.mkStore {[ 1 := UpstreamBalance.mk 1 500%float 200%float 0 0 0 ]} [].

(** 1 May 2024. *)
Definition may1 : Time := dateToTime 2024 5 1.

Definition oneItem (date gross : string) : option paymentservice.SummaryByPZID :=
  Some (paymentservice.mkSummary [Some (paymentservice.mkItem date gross)]).

(** Interface [A] ran 1000 and interface [B] 2000 on 1 May 2024. *)
Definition billing : paymentservice.Service :=
  {| paymentservice.GetSummaryByDayByPZID := fun id _ _ =>
       if String.eqb id "A" then Ok (oneItem "2024-05-01" "1000")
       else if String.eqb id "B" then Ok (oneItem "2024/05/01" "2000")
       else Ok None |}.

(** The same, with the query of [B] failing. *)
Definition billingDown : paymentservice.Service :=
  {| paymentservice.GetSummaryByDayByPZID := fun id _ _ =>
       if String.eqb id "A" then Ok (oneItem "2024-05-01" "1000")
       else Err "timeout" |}.

(** A billing source that reports the gross amount [Inf] for [A] and an
    unreadable one for [B]. *)
Definition billingOdd : paymentservice.Service :=
  {| paymentservice.GetSummaryByDayByPZID := fun id _ _ =>
       if String.eqb id "A" then Ok (oneItem "2024-05-01" "Inf")
       else Ok (oneItem "2024-05-01" "n/a") |}.

Definition bindingA : InterfaceBinding.t := InterfaceBinding.mk "A" "alpha" "2%".
Definition bindingB : InterfaceBinding.t := InterfaceBinding.mk "B" "beta" " 1.5% ".

Definition group : Group.t := Group.mk 1 [bindingA; bindingB].

(** The settlement of [group] for 1 May 2024 on the [funded] store, run at
    clock reading 10: what it returns and the store it leaves. *)
Definition settledBalance : UpstreamBalance.t :=
  UpstreamBalance.mk 1 450%float 200%float 0 0 10.

Definition settledResult : service.SettlementResult :=
  service.mkResult settledBalance
    [ UpstreamSettlementItem.mk "A" "alpha" 2%float 1000%float 20%float;
      UpstreamSettlementItem.mk "B" "beta" 1.5%float 2000%float 30%float ]
    50%float may1.

Definition settledStore : repository.Store :=
  repository.mkStore {[ 1 := settledBalance ]}
    [UpstreamBalanceLog.mk 1 0 (-50)%float 450%float "daily_settlement"
       "2024-05-01" "" 10].

(** Worked data of the further properties: a summary with an item of
    another day followed by two items of 1 May 2024, and a billing
    collaborator that answers with it. *)
Definition twoOfTheDay : paymentservice.SummaryByPZID :=
  paymentservice.mkSummary
    [ Some (paymentservice.mkItem "2024-04-30" "700");
      None;
      Some (paymentservice.mkItem "2024-05-01" "1000");
      Some (paymentservice.mkItem "2024-05-01" "500") ].

Definition otherDayOnly : paymentservice.SummaryByPZID :=
  paymentservice.mkSummary [ None; Some (paymentservice.mkItem "2024-04-30" "700") ].

Definition billingOtherDay : paymentservice.Service :=
  {| paymentservice.GetSummaryByDayByPZID := fun _ _ _ => Ok (Some otherDayOnly) |}.

(** A binding of interface [A] whose rate is not a number. *)
Definition bindingBad : InterfaceBinding.t := InterfaceBinding.mk "A" "alpha" "abc".

End Sample.

(** ** Vocabulary of the statements *)

Module Spec.

Import Go repository.

(** One step of the store: any call of a repository operation that
    writes. *)
Inductive step : Store -> Store -> Prop :=
| step_adjust now s chatID userID delta entryType remark operationID r s' :
    AdjustBalance now s chatID userID delta entryType remark operationID = (r, s') ->
    step s s'
| step_min now s chatID min r s' :
    SetMinBalance now s chatID min = (r, s') -> step s s'
| step_limit now s chatID limit r s' :
    SetAlertLimit now s chatID limit = (r, s') -> step s s'.

(** [later s s']: [s'] is reached from [s] by any number of calls. *)
Definition later : Store -> Store -> Prop := rtc step.

(** The arguments of an [AdjustBalance] call other than the entity and
    the operation ID. *)
Record call : Type := mkCall {
  callNow : Time;
  callUser : Z;
  callDelta : float;
  callType : string;
  callRemark : string
}.

Definition adjustWith (c : call) (s : Store) (chatID : Z) (operationID : string)
    : result UpstreamBalance.t * Store :=
  AdjustBalance (callNow c) s chatID (callUser c) (callDelta c) (callType c)
    (callRemark c) operationID.

(** A sequence of adjustments of one entity under one operation ID. *)
Fixpoint adjustAll (calls : list call) (s : Store) (chatID : Z)
    (operationID : string) : Store :=
  match calls with
  | [] => s
  | c :: rest => adjustAll rest (adjustWith c s chatID operationID).2 chatID operationID
  end.

(** The facts a replay relies on: the operation is in the log and the
    entity has a balance record. *)
Definition applied (s : Store) (chatID : Z) (operationID : string) : Prop :=
  is_Some (findLog s chatID operationID) /\ is_Some (balanceColl s !! chatID).

(** The balance of an entity as a caller of [GetBalance] reads it: zero
    when there is no record. *)
Definition balanceOf (s : Store) (chatID : Z) : float :=
  match GetBalance s chatID with
  | Some b => UpstreamBalance.Balance b
  | None => 0%float
  end.

(** Two amounts are the same number: identical, or equal for Go's [==]
    (which identifies the two zeros and separates NaN from itself). *)
Definition sameAmount (x y : float) : Prop := x = y \/ (x =? y)%float = true.

(** Neither an infinity nor NaN. *)
Definition finite (x : float) : bool :=
  match Prim2SF x with
  | S754_zero _ | S754_finite _ _ _ => true
  | S754_infinity _ | S754_nan => false
  end.

(** The hourly limit [evaluateBalance] applies to a balance record. *)
Definition limitOf (b : UpstreamBalance.t) : Z :=
  if UpstreamBalance.AlertLimitPerHour b <=? 0
  then telegram.defaultAlertLimitPerHour
  else UpstreamBalance.AlertLimitPerHour b.

(** A balance record of entity [chatID] with threshold 100, as the watcher
    observes it. *)
Definition reading (chatID limit : Z) (balance : float) : UpstreamBalance.t :=
  UpstreamBalance.mk chatID balance 100%float limit 0 0.

Section Settlement.

Context {lib : Library}.

(** A line item counts for the day [dateStr]: it is not nil and its date
    normalises to that day. *)
Definition matchesDay (dateStr : string)
    (o : option paymentservice.SummaryByDayItem) : bool :=
  match o with
  | None => false
  | Some item =>
      String.eqb (service.normalizeSummaryDate (paymentservice.Date item)) dateStr
  end.

(** The rate string of a binding, once trimmed of white space and of a
    final percent sign, is empty (as it is when the rate string itself is
    empty) or is not a number for [ParseFloat]. *)
Definition rateMalformed (rate : string) : Prop :=
  let clean := TrimSuffix (TrimSpace rate) "%" in
  clean = "" \/ ParseFloat clean = None.

(** The summary has a line item for the target day, and the gross amount of
    the first such item is not a number for [ParseFloat]. *)
Definition amountMalformed (summary : option paymentservice.SummaryByPZID)
    (targetDate : Time) : Prop :=
  exists sm item,
    summary = Some sm
    /\ List.find (matchesDay (Format targetDate service.dayLayout))
         (paymentservice.Items sm) = Some (Some item)
    /\ ParseFloat (TrimSpace (paymentservice.GrossAmount item)) = None.

(** The ledger entry a settlement writes. *)
Definition settlementEntry (now : Time) (chatID : Z) (deduction after : float)
    (targetDate : Time) : UpstreamBalanceLog.t :=
  UpstreamBalanceLog.mk chatID 0 (- deduction)%float after
    service.upstreamLogTypeDaily (Format targetDate service.dayLayout) "" now.

(** The sum of the deductions, in the order the loop adds them. *)
Definition totalOf (items : list UpstreamSettlementItem.t) (start : float) : float :=
  List.fold_left
    (fun total item => (total + UpstreamSettlementItem.Deduction item)%float)
    items start.

Context {pay : paymentservice.Service}.

(** What [settleBinding] returns for a binding whose query answered. *)
Definition itemOf (binding : InterfaceBinding.t)
    (summary : option paymentservice.SummaryByPZID) (targetDate : Time)
    : UpstreamSettlementItem.t :=
  let grossAmount := service.parseAmountFromSummary summary targetDate in
  let rate := service.parseRatePercent (InterfaceBinding.Rate binding) in
  UpstreamSettlementItem.mk (InterfaceBinding.ID binding)
    (InterfaceBinding.Name binding) rate grossAmount
    (grossAmount * rate / 100)%float.

Definition settles (start end_ targetDate : Time) (binding : InterfaceBinding.t)
    (item : UpstreamSettlementItem.t) : Prop :=
  exists summary,
    paymentservice.GetSummaryByDayByPZID (InterfaceBinding.ID binding) start end_
    = Ok summary
    /\ item = itemOf binding summary targetDate.

End Settlement.

End Spec.

(** ** package telegram: [upstreamDailyScheduler]

    Of the scheduler the per-group task [settleForGroup] and the filter
    [filterUpstreamGroups] are modelled; [dispatch] runs the tasks on an
    [errgroup] and is not.  What a task meets at each attempt is given by
    an environment: the clock reading of the ledger write, the billing
    collaborator as it answers during that attempt, and the error of the
    delivery, if any. *)

Module scheduler.

Import Go.

Record attemptEnv : Type := mkEnv {
  envNow : Time;
  envPay : paymentservice.Service;
  envSendErr : option string
}.

Definition errAfter (attempts : Z) : string :=
  "upstream settlement failed after " ++ pretty attempts ++ " attempts".

Section WithLibrary.

Context {lib : Library}.

(** [isCancel e] is
    [errors.Is(e, context.Canceled) || errors.Is(e, context.DeadlineExceeded)]. *)
Variable isCancel : string -> bool.

(** [envs n] is the environment of attempt [n] (1, 2, 3). *)
Variable envs : Z -> attemptEnv.

(** The loop [for attempts < 3] of [settleForGroup], [remaining] being
    [3 - attempts].  The third component lists the results handed to the
    delivery, in order. *)
Fixpoint settleAttempts (remaining : nat) (attempts : Z) (s : repository.Store)
    (sent : list service.SettlementResult) (group : Group.t) (targetDate : Time)
    : option string * repository.Store * list service.SettlementResult :=
  match remaining with
  | O => (Some (errAfter attempts), s, sent)
  | S remaining' =>
      let attempts := attempts + 1 in
      let env := envs attempts in
      match service.SettleDaily (pay := envPay env) (envNow env) s group targetDate with
      | (Err e, s') =>
          if isCancel e then (Some e, s', sent)
          else settleAttempts remaining' attempts s' sent group targetDate
      | (Ok r, s') =>
          match envSendErr env with
          | Some sendErr =>
              if isCancel sendErr then (Some sendErr, s', sent ++ [r])
              else settleAttempts remaining' attempts s' (sent ++ [r]) group targetDate
          | None => (None, s', sent ++ [r])
          end
      end
  end.

Definition settleForGroup (s : repository.Store) (group : Group.t) (targetDate : Time)
    : option string * repository.Store * list service.SettlementResult :=
  settleAttempts 3 0 s [] group targetDate.

End WithLibrary.

Section Filter.

(** The tier of a group and [models.NormalizeGroupTier] are not in the
    source: [GroupTier] is the type of the field and [isUpstream t] stands
    for [models.NormalizeGroupTier(t) == models.GroupTierUpstream].  A
    listed group is its tier together with the fields the settlement
    reads; the list holds pointers, which may be nil. *)
Variable GroupTier : Type.
Variable isUpstream : GroupTier -> bool.

Fixpoint filterUpstreamGroups (groups : list (option (GroupTier * Group.t)))
    : list (GroupTier * Group.t) :=
  match groups with
  | [] => []
  | None :: rest => filterUpstreamGroups rest
  | Some g :: rest =>
      if negb (isUpstream g.1) then filterUpstreamGroups rest
      else if (List.length (Group.InterfaceBindings g.2) =? 0)%nat
      then filterUpstreamGroups rest
      else g :: filterUpstreamGroups rest
  end.

End Filter.

End scheduler.

(** ** Vocabulary of the further properties *)

Module Ledger.

Import Go repository.

(** Every balance record is stored under its own chat id. *)
Definition keysAgree (s : Store) : Prop :=
  forall k b, balanceColl s !! k = Some b -> UpstreamBalance.ChatID b = k.

(** Every ledger entry belongs to an entity that has a balance record. *)
Definition logsHaveBalance (s : Store) : Prop :=
  forall l, In l (balanceLogsColl s) ->
    is_Some (balanceColl s !! UpstreamBalanceLog.ChatID l).

(** The keys of the unique partial index of the log collection: chat id and
    operation ID of the entries whose operation ID is not empty. *)
Fixpoint operationKeys (logs : list UpstreamBalanceLog.t) : list (Z * string) :=
  match logs with
  | [] => []
  | l :: rest =>
      if String.eqb (UpstreamBalanceLog.OperationID l) "" then operationKeys rest
      else (UpstreamBalanceLog.ChatID l, UpstreamBalanceLog.OperationID l)
             :: operationKeys rest
  end.

(** The latest ledger entry of an entity. *)
Definition latest (chatID : Z) (logs : list UpstreamBalanceLog.t)
    : option UpstreamBalanceLog.t :=
  List.find (fun l => UpstreamBalanceLog.ChatID l =? chatID) (List.rev logs).

(** The ledger entries of an entity, oldest first. *)
Definition entriesOf (chatID : Z) (logs : list UpstreamBalanceLog.t)
    : list UpstreamBalanceLog.t :=
  List.filter (fun l => UpstreamBalanceLog.ChatID l =? chatID) logs.

(** The balance of the latest ledger entry of every entity is the balance
    on record. *)
Definition snapshotAgrees (s : Store) : Prop :=
  forall chatID l,
    latest chatID (balanceLogsColl s) = Some l ->
    exists b, balanceColl s !! chatID = Some b
      /\ UpstreamBalance.Balance b = UpstreamBalanceLog.BalanceAfter l.

End Ledger.

Module Retry.

Import Go.

(** The ledger entry behind a settlement result of a group: the entry
    [SettleDaily] wrote for it, whose time is the update time of the
    returned record. *)
Definition entryOf {lib : Library} (group : Group.t) (r : service.SettlementResult)
    : UpstreamBalanceLog.t :=
  UpstreamBalanceLog.mk (Group.TelegramID group) 0
    (- service.Deduction r)%float
    (UpstreamBalance.Balance (service.Balance r))
    service.upstreamLogTypeDaily
    (Format (service.Target r) service.dayLayout) ""
    (UpstreamBalance.UpdatedAt (service.Balance r)).

(** Attempt [n] settles the group on store [s]: result and store after. *)
Definition settlesAt {lib : Library} (envs : Z -> scheduler.attemptEnv) (n : Z)
    (s : repository.Store) (group : Group.t) (targetDate : Time)
    : result service.SettlementResult * repository.Store :=
  service.SettleDaily (pay := scheduler.envPay (envs n))
    (scheduler.envNow (envs n)) s group targetDate.

End Retry.

Module Settle.

Import Go.

(** The summary has no line item for the target day: it is nil, or none of
    its non-nil items has a date that normalises to the day. *)
Definition noItemForDay {lib : Library}
    (summary : option paymentservice.SummaryByPZID) (targetDate : Time) : Prop :=
  match summary with
  | None => True
  | Some sm =>
      List.find (Spec.matchesDay (Format targetDate service.dayLayout))
        (paymentservice.Items sm) = None
  end.

End Settle.

Module Watch.

Import Go telegram.

(** Monitoring is on for a balance record: the test of [evaluateBalance]
    on [MinBalance] lets it through. *)
Definition monitored (b : UpstreamBalance.t) : bool :=
  negb (UpstreamBalance.MinBalance b <=? 0)%float.

(** The balance is under the threshold. *)
Definition isLow (b : UpstreamBalance.t) : bool :=
  (UpstreamBalance.Balance b <? UpstreamBalance.MinBalance b)%float.

(** The observations a list of events leads to, in order: one for a value
    received on the channel, those of the listing for a tick, none when the
    listing failed. *)
Definition observationsOf (events : list event) : list observation :=
  List.concat
    (List.map
       (fun e =>
          match e with
          | Changed now balance => [(now, balance)]
          | Tick (Ok obs) => obs
          | Tick (Err _) => []
          end)
       events).

(** An observation of entity [chatID] with the limit [limit] in force. *)
Definition observes (chatID limit : Z) (o : observation) : Prop :=
  exists b, o.2 = Some b
    /\ UpstreamBalance.ChatID b = chatID
    /\ Spec.limitOf b = limit.

(** The clock reading of an observation falls into the window opened at
    [start]. *)
Definition inWindow (start : Time) (o : observation) : Prop :=
  Sub o.1 start < Hour.

(** An observation that is no recovery of entity [chatID]: if it is a
    monitored observation of that entity, the balance is under the
    threshold. *)
Definition noRecovery (chatID : Z) (o : observation) : Prop :=
  forall b, o.2 = Some b -> UpstreamBalance.ChatID b = chatID ->
    monitored b = true -> isLow b = true.

(** The alert state [evaluateBalance] works on after its window test. *)
Definition windowed (now : Time) (st : balanceAlertState) : balanceAlertState :=
  if IsZero (windowStart st) || (Hour <=? Sub now (windowStart st))
  then mkState (low st) now 0
  else st.

End Watch.

(** ** Worked data of the further properties *)

Module Sample2.

Import Go.

(** The first credit of entity 1, under the operation ID [op1], and the
    store it leaves. *)
Definition firstEntry : UpstreamBalanceLog.t :=
  UpstreamBalanceLog.mk 1 7 500%float 500%float "manual_add" "" "op1" 10.

Definition opened : repository.Store :=
  repository.mkStore {[ 1 := UpstreamBalance.mk 1 500%float 0%float 0 10 10 ]}
    [firstEntry].

(** The store after a debit of 30 for entity 2. *)
Definition secondEntry : UpstreamBalanceLog.t :=
  UpstreamBalanceLog.mk 2 8 (-30)%float (-30)%float "manual_subtract" "" "" 20.

Definition opened2 : repository.Store :=
  repository.mkStore
    (<[ 2 := UpstreamBalance.mk 2 (-30)%float 0%float 0 20 20 ]>
       {[ 1 := UpstreamBalance.mk 1 500%float 0%float 0 10 10 ]})
    [firstEntry; secondEntry].

(** A busier ledger, from the empty store: entity 1 is credited under
    [op1], debited under [op2], the credit is replayed, entity 2 is credited
    under the same [op1], and entity 1 is debited without operation ID. *)
Definition busy1 : repository.Store :=
  (repository.AdjustBalance 10 repository.emptyStore 1 7 500%float "manual_add" "" "op1").2.

Definition busy2 : repository.Store :=
  (repository.AdjustBalance 20 busy1 1 7 (-100)%float "manual_subtract" "" "op2").2.

Definition busy3 : repository.Store :=
  (repository.AdjustBalance 30 busy2 1 9 500%float "manual_add" "" "op1").2.

Definition busy4 : repository.Store :=
  (repository.AdjustBalance 40 busy3 2 7 80%float "manual_add" "" "op1").2.

Definition busy : repository.Store :=
  (repository.AdjustBalance 50 busy4 1 7 (-5)%float "manual_subtract" "" "").2.

(** Entity 1 marked low, one alert sent in the window opened at 1000. *)
Definition markedLow : gmap Z telegram.balanceAlertState :=
  {[ 1 := telegram.mkState true 1000 1 ]}.

(** Entity 1 not marked low, with the limit of 2 reached in that window. *)
Definition exhausted : gmap Z telegram.balanceAlertState :=
  {[ 1 := telegram.mkState false 1000 2 ]}.

(** A clock reading more than an hour after 1000. *)
Definition muchLater : Time := 1000 + 2 * Hour.

(** A record of entity 1 with monitoring switched off. *)
Definition unmonitored : UpstreamBalance.t :=
  UpstreamBalance.mk 1 10%float 0%float 2 0 0.

(** Entity 1 observed at 90, at 60 two hours later, with monitoring off
    and as a nil value. *)
Definition stillLow : list telegram.observation :=
  [ (2000, Some (Spec.reading 1 2 90%float));
    (muchLater, Some (Spec.reading 1 2 60%float));
    (muchLater, Some unmonitored);
    (muchLater, None) ].

(** Entity 1 recovering and dropping twice inside its window. *)
Definition upAndDown : list telegram.observation :=
  [ (2000, Some (Spec.reading 1 2 150%float));
    (3000, Some (Spec.reading 1 2 80%float));
    (4000, Some (Spec.reading 1 2 150%float));
    (5000, Some (Spec.reading 1 2 60%float)) ].

(** Cancellation errors, recognised through the wrapping of [%w], which
    keeps the message of the wrapped error at the end. *)
Definition isCancel (e : string) : bool :=
  HasSuffix e "context canceled" || HasSuffix e "context deadline exceeded".

(** The delivery of the first attempt fails; billing answers as in
    [Sample.billing]. *)
Definition retryEnvs (n : Z) : scheduler.attemptEnv :=
  scheduler.mkEnv (10 * n) Sample.billing
    (if n =? 1 then Some "bad gateway" else None).

(** Billing is down at every attempt. *)
Definition downEnvs (n : Z) : scheduler.attemptEnv :=
  scheduler.mkEnv (10 * n) Sample.billingDown None.

(** The billing query is cancelled. *)
Definition billingCancelled : paymentservice.Service :=
  {| paymentservice.GetSummaryByDayByPZID := fun _ _ _ => Err "context canceled" |}.

Definition cancelEnvs (n : Z) : scheduler.attemptEnv :=
  scheduler.mkEnv (10 * n) billingCancelled None.

(** The second settlement of [Sample.group], at clock reading 20. *)
Definition settledTwiceBalance : UpstreamBalance.t :=
  UpstreamBalance.mk 1 400%float 200%float 0 0 20.

Definition settledTwiceResult : service.SettlementResult :=
  service.mkResult settledTwiceBalance
    (service.Items Sample.settledResult) 50%float Sample.may1.

Definition settledTwiceStore : repository.Store :=
  repository.mkStore {[ 1 := settledTwiceBalance ]}
    [ UpstreamBalanceLog.mk 1 0 (-50)%float 450%float "daily_settlement"
        "2024-05-01" "" 10;
      UpstreamBalanceLog.mk 1 0 (-50)%float 400%float "daily_settlement"
        "2024-05-01" "" 20 ].

End Sample2.

Example sample_parse :
  Sample.sampleParseFloat "1000" = Some 1000%float
  /\ Sample.sampleParseFloat "1.5" = Some 1.5%float
  /\ Sample.sampleParseFloat "0.125" = Some 0.125%float
  /\ Sample.sampleParseFloat "-12.25" = Some (-12.25)%float
  /\ Sample.sampleParseFloat "Inf" = Some infinity
  /\ Sample.sampleParseFloat "" = None
  /\ Sample.sampleParseFloat "abc" = None
  /\ Sample.sampleParseFloat "-nan" = None
  /\ Sample.sampleParseFloat "+.5" = Some 0.5%float
  /\ Sample.sampleParseFloat "." = None.
Proof. vm_compute. repeat split. Qed.

Example sample_dates :
  Sample.sampleFormat Sample.may1 "2006-01-02" = "2024-05-01"
  /\ Sample.sampleParse "2006/01/02" "2024/02/29" = Some (Sample.dateToTime 2024 2 29)
  /\ Sample.sampleParse "2006-01-02" "2023-02-29" = None
  /\ Sample.sampleFormat (Sample.dateToTime 2023 12 31) "2006-01-02" = "2023-12-31"
  /\ Sample.sampleFormat (Sample.dateToTime 2000 2 29) "2006-01-02" = "2000-02-29"
  /\ Sample.sampleFormat 0 "2006-01-02" = "0001-01-01".
Proof. vm_compute. repeat split. Qed.

Example sample_trim :
  Go.TrimSpace "  1.5%  " = "1.5%"
  /\ Go.TrimSuffix "1.5%" "%" = "1.5"
  /\ Go.TrimSuffix "%" "%" = ""
  /\ Go.TrimSpace "" = ""
  /\ Go.TrimSpace (String (Go.byte 194) (String (Go.byte 160) "x y ")) = "x y".
Proof. vm_compute. repeat split. Qed.

(** ** The ledger store *)

Section Repository.

Import Go repository Spec.

Lemma find_app_l {A} (f : A -> bool) (l1 l2 : list A) (x : A) :
  List.find f l1 = Some x -> List.find f (l1 ++ l2) = Some x.
Proof.
  induction l1 as [|a l1 IH]; simpl; [discriminate|].
  destruct (f a); [trivial | exact IH].
Qed.

Lemma find_app_tail {A} (f : A -> bool) (l : list A) (x : A) :
  f x = true -> is_Some (List.find f (l ++ [x])).
Proof.
  intros Hx. induction l as [|a l IH]; simpl.
  - rewrite Hx. eauto.
  - destruct (f a); eauto.
Qed.

Lemma matchesOperation_refl chatID userID delta after entryType remark operationID now :
  matchesOperation chatID operationID
    (UpstreamBalanceLog.mk chatID userID delta after entryType remark operationID now)
  = true.
Proof.
  unfold matchesOperation; simpl.
  rewrite Z.eqb_refl, String.eqb_refl. reflexivity.
Qed.

Lemma applyDelta_applied now s chatID userID delta entryType remark operationID r s' :
  applyDelta now s chatID userID delta entryType remark operationID = (r, s') ->
  applied s' chatID operationID.
Proof.
  unfold applyDelta. intros [= _ <-]. split.
  - unfold findLog; simpl. apply find_app_tail, matchesOperation_refl.
  - simpl. rewrite lookup_insert_eq. eauto.
Qed.

(** A replay: on a store where the operation was applied, [AdjustBalance]
    returns the stored record and the store as it is. *)
Lemma AdjustBalance_replay now s chatID userID delta entryType remark operationID :
  operationID <> "" ->
  applied s chatID operationID ->
  exists b, balanceColl s !! chatID = Some b
    /\ AdjustBalance now s chatID userID delta entryType remark operationID = (Ok b, s).
Proof.
  intros Hop [[l Hl] [b Hb]]. exists b. split; [exact Hb|].
  unfold AdjustBalance.
  destruct (String.eqb_spec operationID "") as [->|_]; [congruence|].
  simpl. rewrite Hl, Hb. reflexivity.
Qed.

Lemma AdjustBalance_applied now s chatID userID delta entryType remark operationID b s' :
  operationID <> "" ->
  AdjustBalance now s chatID userID delta entryType remark operationID = (Ok b, s') ->
  applied s' chatID operationID.
Proof.
  intros Hop. unfold AdjustBalance.
  destruct (String.eqb_spec operationID "") as [->|_]; [congruence|]. simpl.
  destruct (findLog s chatID operationID) as [l|] eqn:Hl.
  - destruct (balanceColl s !! chatID) as [b0|] eqn:Hb; intros [= <- <-].
    split; [rewrite Hl | rewrite Hb]; eauto.
  - apply applyDelta_applied.
Qed.

(** Every write keeps the log entries and the balance records that are
    there. *)
Lemma step_logs_prefix s s' :
  step s s' -> exists l, balanceLogsColl s' = balanceLogsColl s ++ l.
Proof.
  destruct 1 as [now s chatID userID delta entryType remark operationID r s' H
                | now s chatID min r s' H | now s chatID limit r s' H].
  - unfold AdjustBalance, applyDelta in H.
    repeat case_match; simplify_eq; simpl; eauto using app_nil_r.
    all: exists []; symmetry; apply app_nil_r.
  - injection H as _ <-. exists []. simpl. symmetry. apply app_nil_r.
  - injection H as _ <-. exists []. simpl. symmetry. apply app_nil_r.
Qed.

Lemma step_balance_kept s s' chatID :
  step s s' -> is_Some (balanceColl s !! chatID) -> is_Some (balanceColl s' !! chatID).
Proof.
  intros Hstep Hs.
  assert (Hins : forall k (v : UpstreamBalance.t),
             is_Some (<[k := v]> (balanceColl s) !! chatID)).
  { intros k v. destruct (decide (k = chatID)) as [->|Hne].
    - rewrite lookup_insert_eq. eauto.
    - rewrite lookup_insert_ne by exact Hne. exact Hs. }
  destruct Hstep as [now s chatID' userID delta entryType remark operationID r s' H
                    | now s chatID' min r s' H | now s chatID' limit r s' H].
  - unfold AdjustBalance, applyDelta in H.
    repeat case_match; simplify_eq; simpl; auto.
  - injection H as _ <-. simpl. apply Hins.
  - injection H as _ <-. simpl. apply Hins.
Qed.

Lemma step_applied s s' chatID operationID :
  step s s' -> applied s chatID operationID -> applied s' chatID operationID.
Proof.
  intros Hstep [[l Hl] Hb]. split.
  - destruct (step_logs_prefix _ _ Hstep) as [ext Hext].
    unfold findLog in *. rewrite Hext. rewrite (find_app_l _ _ _ _ Hl). eauto.
  - eapply step_balance_kept; eauto.
Qed.

Lemma later_applied s s' chatID operationID :
  later s s' -> applied s chatID operationID -> applied s' chatID operationID.
Proof.
  induction 1 as [|s1 s2 s3 Hstep _ IH]; [trivial|].
  intros Ha. apply IH. eapply step_applied; eauto.
Qed.

Lemma adjustAll_replay calls s chatID operationID :
  operationID <> "" ->
  applied s chatID operationID ->
  adjustAll calls s chatID operationID = s.
Proof.
  intros Hop Ha. induction calls as [|c calls IH]; simpl; [reflexivity|].
  unfold adjustWith.
  destruct (AdjustBalance_replay (callNow c) s chatID (callUser c) (callDelta c)
              (callType c) (callRemark c) operationID Hop Ha) as (b & _ & ->).
  exact IH.
Qed.

(** C1. Idempotence of [AdjustBalance] under an operation ID.  Once a call
    with a non-empty [operationID] has been applied to an entity, every
    later call for the same pair, after any other writes and whatever its
    other arguments, returns the balance record as stored and leaves the
    store (balances and ledger) unchanged; hence a sequence of adjustments
    sharing the operation ID ends in the store of the first one alone,
    with its balance and its number of ledger entries. *)
Theorem adjust_balance_idempotent
    now s chatID userID delta entryType remark operationID b1 s1 :
  operationID <> "" ->
  AdjustBalance now s chatID userID delta entryType remark operationID = (Ok b1, s1) ->
  (forall s2, later s1 s2 ->
     forall now' userID' delta' entryType' remark',
     exists b2,
       GetBalance s2 chatID = Some b2
       /\ AdjustBalance now' s2 chatID userID' delta' entryType' remark' operationID
          = (Ok b2, s2))
  /\ (forall calls,
        let final :=
          adjustAll (mkCall now userID delta entryType remark :: calls)
            s chatID operationID in
        final = s1
        /\ balanceOf final chatID = balanceOf s1 chatID
        /\ length (balanceLogsColl final) = length (balanceLogsColl s1)).
Proof.
  intros Hop Hfirst.
  pose proof (AdjustBalance_applied _ _ _ _ _ _ _ _ _ _ Hop Hfirst) as Ha.
  split.
  - intros s2 Hlater now' userID' delta' entryType' remark'.
    apply AdjustBalance_replay; [exact Hop|].
    eapply later_applied; eauto.
  - intros calls final.
    assert (Hfinal : final = s1).
    { subst final. simpl. unfold adjustWith at 1. simpl. rewrite Hfirst. simpl.
      apply adjustAll_replay; assumption. }
    rewrite Hfinal. repeat split.
Qed.

End Repository.

(** The scenario of the specification: balance 500, threshold 200, a debit
    of 350 under the operation ID [d1], then any replays. *)
Lemma adjust_balance_idempotent_witness :
  let b1 := UpstreamBalance.mk 1 150%float 200%float 0 0 10 in
  let s1 :=
    repository.mkStore {[ 1 := b1 ]}
      [UpstreamBalanceLog.mk 1 7 (-350)%float 150%float "manual_subtract" "" "d1" 10] in
  "d1" <> ""
  /\ repository.AdjustBalance 10 Sample.funded 1 7 (-350)%float "manual_subtract" "" "d1"
     = (Go.Ok b1, s1)
  /\ (forall s2, Spec.later s1 s2 ->
        forall now' userID' delta' entryType' remark',
        exists b2,
          repository.GetBalance s2 1 = Some b2
          /\ repository.AdjustBalance now' s2 1 userID' delta' entryType' remark' "d1"
             = (Go.Ok b2, s2))
  /\ (forall calls,
        let final :=
          Spec.adjustAll (Spec.mkCall 10 7 (-350)%float "manual_subtract" "" :: calls)
            Sample.funded 1 "d1" in
        final = s1
        /\ Spec.balanceOf final 1 = Spec.balanceOf s1 1
        /\ length (repository.balanceLogsColl final) = length (repository.balanceLogsColl s1)).
Proof.
  intros b1 s1.
  assert (Hop : "d1" <> "") by discriminate.
  assert (Hcall : repository.AdjustBalance 10 Sample.funded 1 7 (-350)%float
                    "manual_subtract" "" "d1" = (Go.Ok b1, s1))
    by (vm_compute; reflexivity).
  split; [exact Hop|]. split; [exact Hcall|].
  exact (adjust_balance_idempotent 10 Sample.funded 1 7 (-350)%float
           "manual_subtract" "" "d1" b1 s1 Hop Hcall).
Defined.

(** ** binary64 facts used below *)

Section Floats.

Import Spec.

Local Open Scope float_scope.

Lemma Prim2SF_zero : Prim2SF 0 = S754_zero false.
Proof. reflexivity. Qed.

Lemma Prim2SF_hundred : exists m e, Prim2SF 100 = S754_finite false m e.
Proof. vm_compute. eauto. Qed.

(** Adding zero keeps the amount: only [-0 + 0] is not the very same value,
    and it is [+0]. *)
Lemma add_zero_same (x : float) : sameAmount (x + 0) x.
Proof.
  unfold sameAmount.
  destruct (Prim2SF x) as [sg| sg | |sg m e] eqn:E.
  - right. rewrite FloatAxioms.eqb_spec, add_spec, E, Prim2SF_zero.
    destruct sg; reflexivity.
  - left. apply Prim2SF_inj. rewrite add_spec, E, Prim2SF_zero. reflexivity.
  - left. apply Prim2SF_inj. rewrite add_spec, E, Prim2SF_zero. reflexivity.
  - left. apply Prim2SF_inj. rewrite add_spec, E, Prim2SF_zero. reflexivity.
Qed.

(** A finite amount at rate zero, and a zero amount at a finite rate, give
    a zero deduction. *)
Lemma finite_times_zero (x : float) :
  finite x = true -> (x * 0 / 100 =? 0) = true.
Proof.
  unfold finite. intros Hfin.
  rewrite FloatAxioms.eqb_spec, div_spec, mul_spec, Prim2SF_zero.
  destruct Prim2SF_hundred as (m & e & ->).
  destruct (Prim2SF x); try discriminate; reflexivity.
Qed.

Lemma zero_times_finite (x : float) :
  finite x = true -> (0 * x / 100 =? 0) = true.
Proof.
  unfold finite. intros Hfin.
  rewrite FloatAxioms.eqb_spec, div_spec, mul_spec, Prim2SF_zero.
  destruct Prim2SF_hundred as (m & e & ->).
  destruct (Prim2SF x); try discriminate; reflexivity.
Qed.

End Floats.

(** ** Thresholds *)

Section Thresholds.

Import Go repository Spec.

Variable sprintf2f : float -> string.

(** What the service's [SetMinBalance] does to a store. *)
Lemma service_SetMinBalance_eq now now' s chatID min :
  let b1 := setMin now chatID min (balanceColl s !! chatID) in
  let b2 := incBalance now' chatID 0%float (Some b1) in
  service.SetMinBalance sprintf2f now now' s chatID min
  = (Ok b1,
     mkStore (<[chatID := b2]> (balanceColl s))
       (balanceLogsColl s
        ++ [UpstreamBalanceLog.mk chatID 0 0%float (UpstreamBalance.Balance b2)
              service.upstreamLogTypeThreshold
              ("set_min_balance=" ++ sprintf2f min) "" now'])).
Proof.
  intros b1 b2. unfold service.SetMinBalance, SetMinBalance, AdjustBalance, applyDelta.
  simpl. rewrite lookup_insert_eq, insert_insert_eq. reflexivity.
Qed.

Lemma setMin_balance now chatID min s :
  UpstreamBalance.Balance (setMin now chatID min (balanceColl s !! chatID))
  = balanceOf s chatID.
Proof.
  unfold balanceOf, GetBalance. destruct (balanceColl s !! chatID); reflexivity.
Qed.

Lemma setMin_min now chatID min old :
  UpstreamBalance.MinBalance (setMin now chatID min old) = min.
Proof. destruct old; reflexivity. Qed.

(** C8. [SetMinBalance] followed by [GetBalance].  At the repository the
    record read back has the new threshold and exactly the balance the
    entity had (zero when the upsert created the record); so has the record
    the service returns.  The service then writes its audit entry through
    [AdjustBalance] with delta zero, and the record read back after it has
    the new threshold and the same amount as balance. *)
Theorem set_min_balance_then_get now now' s chatID min :
  (exists updated s1 b,
      repository.SetMinBalance now s chatID min = (Ok updated, s1)
      /\ GetBalance s1 chatID = Some b
      /\ b = updated
      /\ UpstreamBalance.MinBalance b = min
      /\ UpstreamBalance.Balance b = balanceOf s chatID)
  /\ (exists updated s2 b,
        service.SetMinBalance sprintf2f now now' s chatID min = (Ok updated, s2)
        /\ UpstreamBalance.MinBalance updated = min
        /\ UpstreamBalance.Balance updated = balanceOf s chatID
        /\ service.Get s2 chatID = Some b
        /\ UpstreamBalance.MinBalance b = min
        /\ sameAmount (UpstreamBalance.Balance b) (balanceOf s chatID)).
Proof.
  split.
  - eexists _, _, _. split; [reflexivity|].
    unfold GetBalance; simpl. rewrite lookup_insert_eq.
    repeat split; [apply setMin_min | apply setMin_balance].
  - eexists _, _, _. split; [apply service_SetMinBalance_eq|].
    unfold service.Get, GetBalance; simpl. rewrite lookup_insert_eq.
    repeat split; try apply setMin_min; try apply setMin_balance.
    simpl. rewrite setMin_balance. apply add_zero_same.
Qed.

Lemma setLimit_limit now chatID limit old :
  UpstreamBalance.AlertLimitPerHour (setLimit now chatID limit old) = limit.
Proof. destruct old; reflexivity. Qed.

(** What the service's [SetAlertLimit] does to a store. *)
Lemma service_SetAlertLimit_eq now now' s chatID limit remark :
  let b1 := setLimit now chatID limit (balanceColl s !! chatID) in
  let b2 := incBalance now' chatID 0%float (Some b1) in
  LedgerStore.SetAlertLimit now now' s chatID limit remark
  = (Ok b1,
     mkStore (<[chatID := b2]> (balanceColl s))
       (balanceLogsColl s
        ++ [UpstreamBalanceLog.mk chatID 0 0%float (UpstreamBalance.Balance b2)
              service.upstreamLogTypeThreshold remark "" now'])).
Proof.
  intros b1 b2.
  unfold LedgerStore.SetAlertLimit, SetAlertLimit, AdjustBalance, applyDelta.
  simpl. rewrite lookup_insert_eq, insert_insert_eq. reflexivity.
Qed.

(** C9. Both threshold setters of the service persist their field with
    upsert semantics, return the updated record and append exactly one
    ledger entry for the entity, of delta zero and type [set_min_balance]
    (the threshold-change type), under no operation ID: [SetMinBalance] as
    the source has it, [SetAlertLimit] as modelled from the specification.
    The store answers every call. *)
Theorem threshold_setters_append_audit_entry now now' s chatID min limit remark :
  let audited (run : result UpstreamBalance.t * Store)
      (field : UpstreamBalance.t -> Prop) :=
    exists updated s2 b entry,
      run = (Ok updated, s2)
      /\ field updated
      /\ GetBalance s2 chatID = Some b
      /\ field b
      /\ balanceLogsColl s2 = balanceLogsColl s ++ [entry]
      /\ UpstreamBalanceLog.ChatID entry = chatID
      /\ UpstreamBalanceLog.Delta entry = 0%float
      /\ UpstreamBalanceLog.Type_ entry = "set_min_balance"
      /\ UpstreamBalanceLog.OperationID entry = "" in
  audited (service.SetMinBalance sprintf2f now now' s chatID min)
    (fun b => UpstreamBalance.MinBalance b = min)
  /\ audited (LedgerStore.SetAlertLimit now now' s chatID limit remark)
       (fun b => UpstreamBalance.AlertLimitPerHour b = limit).
Proof.
  intros audited. subst audited. cbv beta. split.
  - eexists _, _, _, _. split; [apply service_SetMinBalance_eq|].
    unfold GetBalance; simpl. rewrite lookup_insert_eq.
    repeat split; apply setMin_min.
  - eexists _, _, _, _. split; [apply service_SetAlertLimit_eq|].
    unfold GetBalance; simpl. rewrite lookup_insert_eq.
    repeat split; apply setLimit_limit.
Qed.

End Thresholds.

(** ** Daily settlement *)

Section Settlement.

Import Go repository Spec.

Context {lib : Library} {pay : paymentservice.Service}.

Lemma settleBinding_ok binding start end_ targetDate item :
  service.settleBinding binding start end_ targetDate = Ok item <->
  settles start end_ targetDate binding item.
Proof.
  unfold service.settleBinding, settles, itemOf.
  destruct (paymentservice.GetSummaryByDayByPZID _ _ _) as [summary|e]; split.
  - intros [= <-]. eauto.
  - intros (summary' & [= <-] & ->). reflexivity.
  - discriminate.
  - intros (summary' & [=] & _).
Qed.

Lemma settleLoop_ok bindings start end_ targetDate items total items' total' :
  service.settleLoop bindings start end_ targetDate items total = Ok (items', total') ->
  exists new,
    Forall2 (settles start end_ targetDate) bindings new
    /\ items' = items ++ new
    /\ total' = totalOf new total.
Proof.
  revert items total. induction bindings as [|binding rest IH]; simpl; intros items total.
  - intros [= <- <-]. exists []. rewrite app_nil_r. repeat split. constructor.
  - destruct (service.settleBinding binding start end_ targetDate) as [item|e] eqn:Hb;
      [|discriminate].
    intros H. apply IH in H as (new & Hall & -> & ->).
    exists (item :: new). repeat split.
    + constructor; [apply settleBinding_ok, Hb | exact Hall].
    + rewrite <- app_assoc. reflexivity.
Qed.

Lemma settleLoop_err bindings start end_ targetDate items total binding e :
  In binding bindings ->
  paymentservice.GetSummaryByDayByPZID (InterfaceBinding.ID binding) start end_ = Err e ->
  exists e', service.settleLoop bindings start end_ targetDate items total = Err e'.
Proof.
  intros Hin Hq. revert items total.
  induction bindings as [|b rest IH]; [destruct Hin|]. simpl. intros items total.
  destruct (service.settleBinding b start end_ targetDate) as [item|e0] eqn:Hb; [|eauto].
  destruct Hin as [->|Hin]; [|apply IH, Hin].
  unfold service.settleBinding in Hb. rewrite Hq in Hb. discriminate.
Qed.

(** The loop does not depend on the store, so a second run computes what
    the first did. *)
Lemma SettleDaily_ok now s group targetDate r s1 :
  service.SettleDaily now s group targetDate = (Ok r, s1) ->
  let chatID := Group.TelegramID group in
  Group.InterfaceBindings group <> []
  /\ service.settleLoop (Group.InterfaceBindings group) (Midnight targetDate)
       (Go.Add (Midnight targetDate) (24 * Hour - Second)) targetDate [] 0%float
     = Ok (service.Items r, service.Deduction r)
  /\ service.Target r = targetDate
  /\ service.Balance r
     = incBalance now chatID (- service.Deduction r)%float (balanceColl s !! chatID)
  /\ s1 = mkStore (<[chatID := service.Balance r]> (balanceColl s))
            (balanceLogsColl s
             ++ [settlementEntry now chatID (service.Deduction r)
                   (UpstreamBalance.Balance (service.Balance r)) targetDate]).
Proof.
  unfold service.SettleDaily.
  destruct (Group.InterfaceBindings group) as [|b0 rest] eqn:Hbs; [discriminate|].
  simpl length. simpl Nat.eqb. cbv iota.
  destruct (service.settleLoop _ _ _ _ _ _) as [[items total]|e]; [|discriminate].
  unfold AdjustBalance, applyDelta. simpl.
  intros [= <- <-]. simpl. repeat split. discriminate.
Qed.

Lemma SettleDaily_run now s group targetDate items total :
  Group.InterfaceBindings group <> [] ->
  service.settleLoop (Group.InterfaceBindings group) (Midnight targetDate)
    (Go.Add (Midnight targetDate) (24 * Hour - Second)) targetDate [] 0%float
  = Ok (items, total) ->
  let chatID := Group.TelegramID group in
  let balance := incBalance now chatID (- total)%float (balanceColl s !! chatID) in
  service.SettleDaily now s group targetDate
  = (Ok (service.mkResult balance items total targetDate),
     mkStore (<[chatID := balance]> (balanceColl s))
       (balanceLogsColl s
        ++ [settlementEntry now chatID total (UpstreamBalance.Balance balance) targetDate])).
Proof.
  intros Hne Hloop. unfold service.SettleDaily.
  destruct (Group.InterfaceBindings group) as [|b0 rest] eqn:Hbs; [congruence|].
  simpl length. simpl Nat.eqb. cbv iota. rewrite Hloop. reflexivity.
Qed.

(** C2. A failed billing query fails the whole settlement before any write:
    when the query of some binding of the group returns an error,
    [SettleDaily] returns an error and the store, balances and ledger, is
    the one it started from. *)
Theorem settle_daily_query_failure_writes_nothing
    now s group targetDate binding e :
  In binding (Group.InterfaceBindings group) ->
  paymentservice.GetSummaryByDayByPZID (InterfaceBinding.ID binding)
    (Midnight targetDate) (Go.Add (Midnight targetDate) (24 * Hour - Second))
  = Err e ->
  exists e', service.SettleDaily now s group targetDate = (Err e', s).
Proof.
  intros Hin Hq. unfold service.SettleDaily.
  destruct (Group.InterfaceBindings group) as [|b0 rest] eqn:Hbs; [destruct Hin|].
  simpl length. simpl Nat.eqb. cbv iota.
  destruct (settleLoop_err (b0 :: rest) _ _ targetDate [] 0%float binding e Hin Hq)
    as [e' ->].
  eauto.
Qed.

(** C4. No idempotency key in the settlement path: the ledger entry of a
    settlement carries the empty operation ID, and a second run for the same
    group and target date succeeds with the same deduction, appends a second
    [daily_settlement] entry and debits the balance again. *)
Theorem settle_daily_twice_debits_twice now1 now2 s group targetDate r1 s1 :
  service.SettleDaily now1 s group targetDate = (Ok r1, s1) ->
  let chatID := Group.TelegramID group in
  let d := service.Deduction r1 in
  exists r2 s2,
    service.SettleDaily now2 s1 group targetDate = (Ok r2, s2)
    /\ service.Deduction r2 = d
    /\ UpstreamBalance.Balance (service.Balance r2)
       = (UpstreamBalance.Balance (service.Balance r1) + - d)%float
    /\ GetBalance s2 chatID = Some (service.Balance r2)
    /\ balanceLogsColl s2
       = balanceLogsColl s
         ++ [settlementEntry now1 chatID d
               (UpstreamBalance.Balance (service.Balance r1)) targetDate;
             settlementEntry now2 chatID d
               (UpstreamBalance.Balance (service.Balance r2)) targetDate]
    /\ UpstreamBalanceLog.OperationID
         (settlementEntry now1 chatID d
            (UpstreamBalance.Balance (service.Balance r1)) targetDate) = "".
Proof.
  intros H1 chatID d.
  apply SettleDaily_ok in H1 as (Hne & Hloop & _ & Hb1 & ->).
  eexists _, _. split; [apply (SettleDaily_run now2 _ group targetDate _ _ Hne Hloop)|].
  fold chatID. simpl. rewrite lookup_insert_eq. simpl.
  repeat split.
  - unfold GetBalance; simpl. apply lookup_insert_eq.
  - rewrite <- app_assoc. reflexivity.
Qed.

(** C5. A successful settlement: every binding yields one item, in order,
    whose deduction is its gross amount times its rate over 100, computed as
    the code writes it, [grossAmount * rate / 100]; the total is the sum of
    the deductions; the ledger gains exactly one entry, of type
    [daily_settlement], with the negated total as delta and the target date
    as remark.  In particular gross amounts 1000 and 2000 at rates 2 and 1.5
    give the deductions 20 and 30 and a delta of -50. *)
Theorem settle_daily_deductions_and_single_debit now s group targetDate r s1 :
  service.SettleDaily now s group targetDate = (Ok r, s1) ->
  let chatID := Group.TelegramID group in
  Forall2 (settles (Midnight targetDate)
             (Go.Add (Midnight targetDate) (24 * Hour - Second)) targetDate)
    (Group.InterfaceBindings group) (service.Items r)
  /\ Forall (fun item =>
               UpstreamSettlementItem.Deduction item
               = (UpstreamSettlementItem.GrossAmount item
                  * UpstreamSettlementItem.RatePercent item / 100)%float)
       (service.Items r)
  /\ service.Deduction r = totalOf (service.Items r) 0%float
  /\ balanceLogsColl s1
     = balanceLogsColl s
       ++ [UpstreamBalanceLog.mk chatID 0 (- service.Deduction r)%float
             (UpstreamBalance.Balance (service.Balance r))
             "daily_settlement" (Format targetDate "2006-01-02") "" now]
  /\ GetBalance s1 chatID = Some (service.Balance r)
  /\ (List.map UpstreamSettlementItem.GrossAmount (service.Items r)
        = [1000; 2000]%float ->
      List.map UpstreamSettlementItem.RatePercent (service.Items r)
        = [2; 1.5]%float ->
      List.map UpstreamSettlementItem.Deduction (service.Items r) = [20; 30]%float
      /\ service.Deduction r = 50%float
      /\ (- service.Deduction r)%float = (-50)%float).
Proof.
  intros H chatID.
  apply SettleDaily_ok in H as (Hne & Hloop & _ & Hb & ->).
  apply settleLoop_ok in Hloop as (new & Hall & Hitems & Htotal).
  simpl in Hitems. subst new.
  assert (Hded : Forall (fun item =>
               UpstreamSettlementItem.Deduction item
               = (UpstreamSettlementItem.GrossAmount item
                  * UpstreamSettlementItem.RatePercent item / 100)%float)
            (service.Items r)).
  { clear -Hall. induction Hall as [|b item bs items' (summary & _ & ->) _ IH];
      constructor; [reflexivity | exact IH]. }
  repeat split; try assumption.
  - unfold GetBalance; simpl. apply lookup_insert_eq.
  - destruct (service.Items r) as [|i1 [|i2 [|i3 rest]]]; try discriminate.
    inversion Hded as [|? ? H1 Hded']; subst. inversion Hded' as [|? ? H2 _]; subst.
    simpl in *. rewrite H1, H2.
    injection H as HG1 HG2. injection H0 as HR1 HR2.
    rewrite HG1, HG2, HR1, HR2. reflexivity.
  - destruct (service.Items r) as [|i1 [|i2 [|i3 rest]]]; try discriminate.
    inversion Hded as [|? ? H1 Hded']; subst. inversion Hded' as [|? ? H2 _]; subst.
    simpl in *. rewrite Htotal, H1, H2.
    injection H as HG1 HG2. injection H0 as HR1 HR2.
    rewrite HG1, HG2, HR1, HR2. reflexivity.
  - destruct (service.Items r) as [|i1 [|i2 [|i3 rest]]]; try discriminate.
    inversion Hded as [|? ? H1 Hded']; subst. inversion Hded' as [|? ? H2 _]; subst.
    simpl in *. rewrite Htotal, H1, H2.
    injection H as HG1 HG2. injection H0 as HR1 HR2.
    rewrite HG1, HG2, HR1, HR2. reflexivity.
Qed.

End Settlement.

(** ** Malformed rates and amounts *)

Section Malformed.

Import Go repository Spec.

Context {lib : Library} {pay : paymentservice.Service}.

(** An empty rate string is malformed. *)
Lemma rateMalformed_empty : rateMalformed "".
Proof. left. reflexivity. Qed.

Lemma parseRatePercent_malformed rate :
  rateMalformed rate -> service.parseRatePercent rate = 0%float.
Proof.
  unfold rateMalformed, service.parseRatePercent. intros [-> | ->].
  - reflexivity.
  - destruct (String.eqb _ ""); reflexivity.
Qed.

(** The loop of [parseAmountFromSummary] stops at the first item of the
    day. *)
Lemma amountOfItems_first items dateStr item :
  List.find (matchesDay dateStr) items = Some (Some item) ->
  service.amountOfItems items dateStr
  = match ParseFloat (TrimSpace (paymentservice.GrossAmount item)) with
    | None => 0%float
    | Some amount => amount
    end.
Proof.
  induction items as [|[i|] rest IH]; simpl; [discriminate| |exact IH].
  destruct (String.eqb _ dateStr); simpl; [|exact IH].
  intros [= ->]. reflexivity.
Qed.

Lemma parseAmount_malformed summary targetDate :
  amountMalformed summary targetDate ->
  service.parseAmountFromSummary summary targetDate = 0%float.
Proof.
  intros (sm & item & -> & Hfind & Hnone). simpl.
  rewrite (amountOfItems_first _ _ _ Hfind), Hnone. reflexivity.
Qed.

Lemma finite_zero : finite 0%float = true.
Proof. reflexivity. Qed.

(** C10, as the code has it.  When the billing query answers, a binding
    whose rate is empty or unreadable is settled at rate 0, and a summary
    whose first line item of the target day has an unreadable gross amount
    is settled at gross amount 0; [settleBinding] returns an item and no
    error, and the deduction of that item is zero as soon as the other
    factor is a finite number. *)
Theorem malformed_input_settles_at_zero binding start end_ targetDate summary :
  paymentservice.GetSummaryByDayByPZID (InterfaceBinding.ID binding) start end_
  = Ok summary ->
  rateMalformed (InterfaceBinding.Rate binding)
  \/ amountMalformed summary targetDate ->
  exists item,
    service.settleBinding binding start end_ targetDate = Ok item
    /\ (rateMalformed (InterfaceBinding.Rate binding) ->
        UpstreamSettlementItem.RatePercent item = 0%float)
    /\ (amountMalformed summary targetDate ->
        UpstreamSettlementItem.GrossAmount item = 0%float)
    /\ (finite (UpstreamSettlementItem.GrossAmount item) = true ->
        finite (UpstreamSettlementItem.RatePercent item) = true ->
        (UpstreamSettlementItem.Deduction item =? 0)%float = true).
Proof.
  intros Hq Hbad. exists (itemOf binding summary targetDate).
  split; [apply settleBinding_ok; exists summary; auto|].
  unfold itemOf; simpl.
  split; [apply parseRatePercent_malformed|].
  split; [apply parseAmount_malformed|].
  intros Hg Hr. destruct Hbad as [Hrate | Hamount].
  - rewrite (parseRatePercent_malformed _ Hrate). apply finite_times_zero, Hg.
  - rewrite (parseAmount_malformed _ _ Hamount). apply zero_times_finite, Hr.
Qed.

End Malformed.

(** C10 as stated fails when the other factor is not finite: with an empty
    rate and the gross amount [Inf], which [ParseFloat] reads as infinity,
    [settleBinding] returns the deduction [Inf * 0 / 100], which is NaN and
    not zero. *)
Lemma malformed_rate_with_infinite_amount :
  Spec.rateMalformed (lib := Sample.library) ""
  /\ service.settleBinding (lib := Sample.library) (pay := Sample.billingOdd)
       (InterfaceBinding.mk "A" "alpha" "")
       (Go.Midnight (Library := Sample.library) Sample.may1)
       (Go.Add Sample.may1 (24 * Go.Hour - Go.Second)) Sample.may1
     = Go.Ok (UpstreamSettlementItem.mk "A" "alpha" 0%float infinity nan)
  /\ (nan =? 0)%float = false.
Proof. split; [left; vm_compute; reflexivity|]. split; vm_compute; reflexivity. Qed.

(** ** The balance watcher *)

Section Watcher.

Import Go Spec telegram.

(** An evaluation of a monitored entity whose window is still running reads
    the state as stored. *)
Lemma evaluateBalance_in_window now states b st :
  (UpstreamBalance.MinBalance b <=? 0)%float = false ->
  states !! UpstreamBalance.ChatID b = Some st ->
  IsZero (windowStart st) = false ->
  Sub now (windowStart st) < Hour ->
  evaluateBalance now states (Some b)
  = let chat := UpstreamBalance.ChatID b in
    if negb (UpstreamBalance.Balance b <? UpstreamBalance.MinBalance b)%float
    then (<[chat := mkState false (windowStart st) (sentCount st)]> states, [])
    else if low st then (states, [])
    else if limitOf b <=? sentCount st then (states, [])
    else (<[chat := mkState true (windowStart st) (sentCount st + 1)]> states, [b]).
Proof.
  intros Hmin Hst Hzero Hwin. unfold evaluateBalance, limitOf.
  rewrite Hmin, Hst. simpl. rewrite Hzero. simpl.
  destruct (Z.leb_spec Hour (Sub now (windowStart st))) as [Hge|_]; [lia|].
  rewrite (insert_id states _ _ Hst). reflexivity.
Qed.

(** The first evaluation of an entity opens its window at the clock
    reading. *)
Lemma evaluateBalance_first now states b :
  (UpstreamBalance.MinBalance b <=? 0)%float = false ->
  states !! UpstreamBalance.ChatID b = None ->
  evaluateBalance now states (Some b)
  = let chat := UpstreamBalance.ChatID b in
    if negb (UpstreamBalance.Balance b <? UpstreamBalance.MinBalance b)%float
    then (<[chat := mkState false now 0]> states, [])
    else if limitOf b <=? 0 then (<[chat := mkState false now 0]> states, [])
    else (<[chat := mkState true now 1]> states, [b]).
Proof.
  intros Hmin Hst. unfold evaluateBalance, limitOf.
  rewrite Hmin, Hst. reflexivity.
Qed.

Lemma limitOf_pos b : 0 < limitOf b.
Proof.
  unfold limitOf, defaultAlertLimitPerHour.
  destruct (Z.leb_spec (UpstreamBalance.AlertLimitPerHour b) 0); lia.
Qed.

Lemma Sub_within t u : u <= t -> t < u + Hour -> Sub t u = t - u.
Proof.
  intros Hle Hlt. unfold Sub.
  assert (Hour < maxDuration) by reflexivity.
  assert (minDuration < 0) by reflexivity.
  destruct (Z.ltb_spec maxDuration (t - u)); [lia|].
  destruct (Z.ltb_spec (t - u) minDuration); [lia|]. reflexivity.
Qed.

(** C3, as the code has it.  For a monitored entity whose state is not low,
    whose window is still running and whose alerts sent in the window have
    reached its hourly limit, an observation below the threshold delivers no
    alert and leaves the entity's state as it was: the low flag stays false
    and the count is unchanged. *)
Theorem rate_limited_transition_leaves_state now states b st :
  (UpstreamBalance.MinBalance b <=? 0)%float = false ->
  (UpstreamBalance.Balance b <? UpstreamBalance.MinBalance b)%float = true ->
  states !! UpstreamBalance.ChatID b = Some st ->
  low st = false ->
  IsZero (windowStart st) = false ->
  Sub now (windowStart st) < Hour ->
  limitOf b <= sentCount st ->
  evaluateBalance now states (Some b) = (states, [])
  /\ low <$> (evaluateBalance now states (Some b)).1 !! UpstreamBalance.ChatID b
     = Some false.
Proof.
  intros Hmin Hlow Hst Hflag Hzero Hwin Hlimit.
  rewrite (evaluateBalance_in_window now states b st Hmin Hst Hzero Hwin).
  simpl. rewrite Hlow, Hflag. simpl.
  destruct (Z.leb_spec (limitOf b) (sentCount st)); [|lia].
  simpl. rewrite Hst. simpl. rewrite Hflag. auto.
Qed.

(** C6, as the code has it.  With threshold 100, a limit of at least 2 and
    four observations 150, 80, 90, 60 of a fresh entity inside one window,
    exactly one alert is delivered, for the observation 80: 90 and 60 are
    below the threshold too and are observed while the entity is marked
    low. *)
Theorem low_balance_sequence_alerts_once chat limit t0 t1 t2 t3 states :
  states !! chat = None ->
  2 <= limit ->
  0 < t0 ->
  t0 <= t1 /\ t1 <= t2 /\ t2 <= t3 /\ t3 < t0 + Hour ->
  evaluateAll
    [ (t0, Some (reading chat limit 150%float));
      (t1, Some (reading chat limit 80%float));
      (t2, Some (reading chat limit 90%float));
      (t3, Some (reading chat limit 60%float)) ] states
  = (<[chat := mkState true t0 1]> states, [reading chat limit 80%float]).
Proof.
  intros Hfresh Hlimit Ht0 (H01 & H12 & H23 & H3).
  assert (Hz : IsZero t0 = false) by (unfold IsZero; apply Z.eqb_neq; lia).
  assert (Hlim0 : forall x, (limitOf (reading chat limit x) <=? 0) = false).
  { intros x. apply Z.leb_gt, limitOf_pos. }
  cbn [evaluateAll].
  rewrite (evaluateBalance_first t0 states (reading chat limit 150%float));
    [|reflexivity|exact Hfresh].
  cbn [reading UpstreamBalance.ChatID UpstreamBalance.Balance UpstreamBalance.MinBalance].
  change (150 <? 100)%float with false. cbn [negb].
  rewrite (evaluateBalance_in_window t1 _ (reading chat limit 80%float)
             (mkState false t0 0));
    [|reflexivity|apply lookup_insert_eq|exact Hz|
     cbn [windowStart]; rewrite Sub_within; lia].
  rewrite Hlim0.
  cbn [reading UpstreamBalance.ChatID UpstreamBalance.Balance UpstreamBalance.MinBalance
       low windowStart sentCount].
  change (80 <? 100)%float with true. cbn [negb].
  rewrite insert_insert_eq.
  rewrite (evaluateBalance_in_window t2 _ (reading chat limit 90%float)
             (mkState true t0 (0 + 1)));
    [|reflexivity|apply lookup_insert_eq|exact Hz|
     cbn [windowStart]; rewrite Sub_within; lia].
  cbn [reading UpstreamBalance.ChatID UpstreamBalance.Balance UpstreamBalance.MinBalance
       low windowStart sentCount].
  change (90 <? 100)%float with true. cbn [negb].
  rewrite (evaluateBalance_in_window t3 _ (reading chat limit 60%float)
             (mkState true t0 (0 + 1)));
    [|reflexivity|apply lookup_insert_eq|exact Hz|
     cbn [windowStart]; rewrite Sub_within; lia].
  cbn [reading UpstreamBalance.ChatID UpstreamBalance.Balance UpstreamBalance.MinBalance
       low windowStart sentCount].
  change (60 <? 100)%float with true. cbn [negb].
  reflexivity.
Qed.

End Watcher.

(** C3 as stated fails: three alerts sent in the running window, limit 3,
    balance 50 under threshold 100.  No alert is delivered and the low flag
    of the entity is still false. *)
Lemma rate_limited_transition_not_recorded :
  let st := telegram.mkState false 1000 3 in
  let b := UpstreamBalance.mk 1 50%float 100%float 3 0 0 in
  telegram.evaluateBalance 2000 {[ 1 := st ]} (Some b) = ({[ 1 := st ]}, [])
  /\ telegram.low <$> (telegram.evaluateBalance 2000 {[ 1 := st ]} (Some b)).1 !! 1
     = Some false.
Proof. split; vm_compute; reflexivity. Qed.

(** C6 as stated fails: the four observations deliver one alert, not two. *)
Lemma low_balance_sequence_one_alert :
  (telegram.evaluateAll
     [ (1000, Some (Spec.reading 1 2 150%float));
       (2000, Some (Spec.reading 1 2 80%float));
       (3000, Some (Spec.reading 1 2 90%float));
       (4000, Some (Spec.reading 1 2 60%float)) ] ∅).2
  = [Spec.reading 1 2 80%float].
Proof. vm_compute. reflexivity. Qed.

(** ** The theorems at concrete inputs *)

(** The query of interface [B] fails: the settlement fails and the funded
    store is untouched. *)
Lemma settle_daily_query_failure_witness :
  In Sample.bindingB (Group.InterfaceBindings Sample.group)
  /\ paymentservice.GetSummaryByDayByPZID (Service := Sample.billingDown) "B"
       (Go.Midnight (Library := Sample.library) Sample.may1)
       (Go.Add (Go.Midnight (Library := Sample.library) Sample.may1)
          (24 * Go.Hour - Go.Second))
     = Go.Err "timeout"
  /\ exists e',
       service.SettleDaily (lib := Sample.library) (pay := Sample.billingDown)
         10 Sample.funded Sample.group Sample.may1
       = (Go.Err e', Sample.funded).
Proof.
  assert (Hin : In Sample.bindingB (Group.InterfaceBindings Sample.group))
    by (right; left; reflexivity).
  split; [exact Hin|]. split; [reflexivity|].
  exact (settle_daily_query_failure_writes_nothing (lib := Sample.library)
           (pay := Sample.billingDown) 10 Sample.funded Sample.group Sample.may1
           Sample.bindingB "timeout" Hin eq_refl).
Defined.

(** In a running window with the limit reached. *)
Lemma rate_limited_transition_witness :
  let st := telegram.mkState false 1000 3 in
  let b := UpstreamBalance.mk 1 50%float 100%float 3 0 0 in
  telegram.evaluateBalance 2000 {[ 1 := st ]} (Some b) = ({[ 1 := st ]}, [])
  /\ telegram.low <$> (telegram.evaluateBalance 2000 {[ 1 := st ]} (Some b)).1 !! 1
     = Some false.
Proof.
  intros st b.
  refine (rate_limited_transition_leaves_state 2000 {[ 1 := st ]} b st
            eq_refl eq_refl eq_refl eq_refl eq_refl _ _).
  - vm_compute. reflexivity.
  - vm_compute. discriminate.
Defined.

(** Entity 1, limit 2, four observations a second apart. *)
Lemma low_balance_sequence_witness :
  telegram.evaluateAll
    [ (1000, Some (Spec.reading 1 2 150%float));
      (2000, Some (Spec.reading 1 2 80%float));
      (3000, Some (Spec.reading 1 2 90%float));
      (4000, Some (Spec.reading 1 2 60%float)) ] ∅
  = (<[ 1 := telegram.mkState true 1000 1 ]> ∅, [Spec.reading 1 2 80%float]).
Proof.
  refine (low_balance_sequence_alerts_once 1 2 1000 2000 3000 4000 ∅ eq_refl _ _ _).
  - lia.
  - lia.
  - unfold Go.Hour, Go.Minute, Go.Second. lia.
Defined.

Lemma sample_settlement :
  service.SettleDaily (lib := Sample.library) (pay := Sample.billing)
    10 Sample.funded Sample.group Sample.may1
  = (Go.Ok Sample.settledResult, Sample.settledStore).
Proof. vm_compute. reflexivity. Qed.

(** The sample settlement run a second time, at clock reading 20: the
    balance goes from 450 to 400 and the ledger holds two entries. *)
Lemma settle_daily_twice_witness :
  service.SettleDaily (lib := Sample.library) (pay := Sample.billing)
    10 Sample.funded Sample.group Sample.may1
  = (Go.Ok Sample.settledResult, Sample.settledStore)
  /\ exists r2 s2,
       service.SettleDaily (lib := Sample.library) (pay := Sample.billing)
         20 Sample.settledStore Sample.group Sample.may1 = (Go.Ok r2, s2)
       /\ service.Deduction r2 = 50%float
       /\ UpstreamBalance.Balance (service.Balance r2) = (450 + - 50)%float
       /\ repository.GetBalance s2 1 = Some (service.Balance r2)
       /\ repository.balanceLogsColl s2
          = [] ++ [Spec.settlementEntry (lib := Sample.library) 10 1 50%float 450%float
                     Sample.may1;
                   Spec.settlementEntry (lib := Sample.library) 20 1 50%float
                     (UpstreamBalance.Balance (service.Balance r2)) Sample.may1]
       /\ UpstreamBalanceLog.OperationID
            (Spec.settlementEntry (lib := Sample.library) 10 1 50%float 450%float
               Sample.may1) = "".
Proof.
  split; [exact sample_settlement|].
  exact (settle_daily_twice_debits_twice (lib := Sample.library)
           (pay := Sample.billing) 10 20 Sample.funded Sample.group Sample.may1
           Sample.settledResult Sample.settledStore sample_settlement).
Defined.

(** The scenario of the specification: 1000 at 2% and 2000 at 1.5%. *)
Lemma settle_daily_deductions_witness :
  service.SettleDaily (lib := Sample.library) (pay := Sample.billing)
    10 Sample.funded Sample.group Sample.may1
  = (Go.Ok Sample.settledResult, Sample.settledStore)
  /\ List.map UpstreamSettlementItem.Deduction (service.Items Sample.settledResult)
     = [20; 30]%float
  /\ service.Deduction Sample.settledResult = 50%float
  /\ (- service.Deduction Sample.settledResult)%float = (-50)%float
  /\ repository.balanceLogsColl Sample.settledStore
     = [] ++ [UpstreamBalanceLog.mk 1 0 (- 50)%float 450%float "daily_settlement"
                (Go.Format (Library := Sample.library) Sample.may1 "2006-01-02") "" 10].
Proof.
  split; [exact sample_settlement|].
  destruct (settle_daily_deductions_and_single_debit (lib := Sample.library)
              (pay := Sample.billing) 10 Sample.funded Sample.group Sample.may1
              Sample.settledResult Sample.settledStore sample_settlement)
    as (_ & _ & _ & Hlog & _ & Hexample).
  destruct (Hexample eq_refl eq_refl) as (Hd & Ht & Hneg).
  repeat split; assumption.
Defined.

(** Interface [A] with the rate [abc] and a gross amount of 1000. *)
Lemma malformed_input_witness :
  Spec.rateMalformed (lib := Sample.library) (InterfaceBinding.Rate Sample.bindingBad)
  /\ exists item,
       service.settleBinding (lib := Sample.library) (pay := Sample.billing)
         Sample.bindingBad 0 0 Sample.may1 = Go.Ok item
       /\ UpstreamSettlementItem.RatePercent item = 0%float
       /\ (UpstreamSettlementItem.Deduction item =? 0)%float = true.
Proof.
  assert (Hbad : Spec.rateMalformed (lib := Sample.library)
                   (InterfaceBinding.Rate Sample.bindingBad))
    by (right; vm_compute; reflexivity).
  split; [exact Hbad|].
  destruct (malformed_input_settles_at_zero (lib := Sample.library)
              (pay := Sample.billing) Sample.bindingBad 0 0 Sample.may1
              (Sample.oneItem "2024-05-01" "1000") eq_refl (or_introl Hbad))
    as (item & Hitem & Hrate & _ & Hded).
  exists item. split; [exact Hitem|]. split; [exact (Hrate Hbad)|].
  assert (Hgross : UpstreamSettlementItem.GrossAmount item = 1000%float).
  { assert (Hrun : service.settleBinding (lib := Sample.library) (pay := Sample.billing)
                     Sample.bindingBad 0 0 Sample.may1
                   = Go.Ok (UpstreamSettlementItem.mk "A" "alpha" 0%float 1000%float 0%float))
      by (vm_compute; reflexivity).
    rewrite Hrun in Hitem. injection Hitem as <-. reflexivity. }
  apply Hded.
  - rewrite Hgross. reflexivity.
  - rewrite (Hrate Hbad). reflexivity.
Defined.

(** ** Invariants of the ledger store *)

Section LedgerInvariants.

Import Go repository Spec Ledger.

(** The shapes of a write: a replay or a refused call (nothing changes), a
    fresh adjustment, or one of the two setters. *)
Lemma step_shape s s' :
  step s s' ->
  s' = s
  \/ (exists now chatID userID delta entryType remark operationID,
        (operationID = "" \/ findLog s chatID operationID = None)
        /\ s' = (applyDelta now s chatID userID delta entryType remark operationID).2)
  \/ (exists now chatID min, s' = (SetMinBalance now s chatID min).2)
  \/ (exists now chatID limit, s' = (SetAlertLimit now s chatID limit).2).
Proof.
  destruct 1 as [now s chatID userID delta entryType remark operationID r s' H
                | now s chatID min r s' H | now s chatID limit r s' H].
  - unfold AdjustBalance in H.
    destruct (String.eqb_spec operationID "") as [Hop|Hop]; simpl in H.
    + right; left. exists now, chatID, userID, delta, entryType, remark, operationID.
      rewrite H. auto.
    + destruct (findLog s chatID operationID) eqn:Hfind.
      * left. destruct (balanceColl s !! chatID); congruence.
      * right; left. exists now, chatID, userID, delta, entryType, remark, operationID.
        rewrite H. auto.
  - right; right; left. exists now, chatID, min. rewrite H. reflexivity.
  - right; right; right. exists now, chatID, limit. rewrite H. reflexivity.
Qed.

(** An invariant of the writes holds in every store that is reached. *)
Lemma later_invariant (P : Store -> Prop) :
  (forall s s', step s s' -> P s -> P s') ->
  forall s s', later s s' -> P s -> P s'.
Proof.
  intros Hstep s s' Hlater. induction Hlater as [|s1 s2 s3 H12 _ IH]; [trivial|].
  intros H1. apply IH. eapply Hstep; eauto.
Qed.

Lemma incBalance_chat now chatID delta old :
  (forall b, old = Some b -> UpstreamBalance.ChatID b = chatID) ->
  UpstreamBalance.ChatID (incBalance now chatID delta old) = chatID.
Proof. destruct old as [b|]; simpl; auto. Qed.

Lemma setMin_chat now chatID min old :
  (forall b, old = Some b -> UpstreamBalance.ChatID b = chatID) ->
  UpstreamBalance.ChatID (setMin now chatID min old) = chatID.
Proof. destruct old as [b|]; simpl; auto. Qed.

Lemma setLimit_chat now chatID limit old :
  (forall b, old = Some b -> UpstreamBalance.ChatID b = chatID) ->
  UpstreamBalance.ChatID (setLimit now chatID limit old) = chatID.
Proof. destruct old as [b|]; simpl; auto. Qed.

Lemma keysAgree_insert s chatID b :
  keysAgree s -> UpstreamBalance.ChatID b = chatID ->
  forall logs, keysAgree (mkStore (<[chatID := b]> (balanceColl s)) logs).
Proof.
  intros Hs Hb logs k b'. simpl.
  destruct (decide (chatID = k)) as [->|Hne].
  - rewrite lookup_insert_eq. intros [= <-]. exact Hb.
  - rewrite lookup_insert_ne by exact Hne. apply Hs.
Qed.

Lemma step_keysAgree s s' : step s s' -> keysAgree s -> keysAgree s'.
Proof.
  intros Hstep Hs.
  destruct (step_shape _ _ Hstep)
    as [-> | [(now & c & u & d & ty & rem & op & _ & ->)
           | [(now & c & m & ->) | (now & c & l & ->)]]]; [exact Hs| | |].
  - apply keysAgree_insert; [exact Hs|]. apply incBalance_chat. intros b. apply Hs.
  - apply keysAgree_insert; [exact Hs|]. apply setMin_chat. intros b. apply Hs.
  - apply keysAgree_insert; [exact Hs|]. apply setLimit_chat. intros b. apply Hs.
Qed.

Lemma logsHaveBalance_insert s chatID b :
  logsHaveBalance s ->
  logsHaveBalance (mkStore (<[chatID := b]> (balanceColl s)) (balanceLogsColl s)).
Proof.
  intros Hs l Hin. simpl in *.
  destruct (decide (chatID = UpstreamBalanceLog.ChatID l)) as [->|Hne].
  - rewrite lookup_insert_eq. eauto.
  - rewrite lookup_insert_ne by exact Hne. apply Hs, Hin.
Qed.

Lemma step_logsHaveBalance s s' : step s s' -> logsHaveBalance s -> logsHaveBalance s'.
Proof.
  intros Hstep Hs.
  destruct (step_shape _ _ Hstep)
    as [-> | [(now & c & u & d & ty & rem & op & _ & ->)
           | [(now & c & m & ->) | (now & c & l & ->)]]]; [exact Hs| | |].
  - intros l Hin. simpl in *. apply in_app_or in Hin as [Hin|[<-|[]]].
    + destruct (decide (c = UpstreamBalanceLog.ChatID l)) as [->|Hne].
      * rewrite lookup_insert_eq. eauto.
      * rewrite lookup_insert_ne by exact Hne. apply Hs, Hin.
    + simpl. rewrite lookup_insert_eq. eauto.
  - apply logsHaveBalance_insert, Hs.
  - apply logsHaveBalance_insert, Hs.
Qed.

Lemma emptyStore_logsHaveBalance : logsHaveBalance emptyStore.
Proof. intros l []. Qed.

(** X1. On a store reached from the empty store by repository writes,
    every ledger entry belongs to an entity with a balance record, so
    [AdjustBalance] never takes its "balance not found for existing
    operation" exit: whatever its arguments, it returns a balance record. *)
Theorem reachable_adjust_never_fails s :
  later emptyStore s ->
  logsHaveBalance s
  /\ forall now chatID userID delta entryType remark operationID,
       exists b s',
         AdjustBalance now s chatID userID delta entryType remark operationID
         = (Ok b, s').
Proof.
  intros Hlater.
  assert (Hinv : logsHaveBalance s).
  { exact (later_invariant logsHaveBalance step_logsHaveBalance _ _ Hlater
             emptyStore_logsHaveBalance). }
  split; [exact Hinv|].
  intros now chatID userID delta entryType remark operationID.
  unfold AdjustBalance.
  destruct (negb (String.eqb operationID "")); [|unfold applyDelta; eauto].
  destruct (findLog s chatID operationID) as [l|] eqn:Hfind;
    [|unfold applyDelta; eauto].
  apply find_some in Hfind as [Hin Hmatch].
  unfold matchesOperation in Hmatch. apply andb_prop in Hmatch as [Hchat _].
  apply Z.eqb_eq in Hchat.
  destruct (Hinv l Hin) as [b Hb]. rewrite Hchat in Hb. rewrite Hb. eauto.
Qed.

Lemma operationKeys_app logs1 logs2 :
  operationKeys (logs1 ++ logs2) = operationKeys logs1 ++ operationKeys logs2.
Proof.
  induction logs1 as [|l logs1 IH]; simpl; [reflexivity|].
  destruct (String.eqb _ ""); simpl; congruence.
Qed.

Lemma operationKeys_in logs chatID operationID :
  In (chatID, operationID) (operationKeys logs) ->
  exists l, In l logs /\ matchesOperation chatID operationID l = true.
Proof.
  induction logs as [|l logs IH]; simpl; [intros []|].
  destruct (String.eqb_spec (UpstreamBalanceLog.OperationID l) "") as [_|_].
  - intros Hin. destruct (IH Hin) as (l' & Hl' & Hm). eauto.
  - intros [[= <- <-]|Hin].
    + exists l. split; [auto|]. unfold matchesOperation.
      rewrite Z.eqb_refl, String.eqb_refl. reflexivity.
    + destruct (IH Hin) as (l' & Hl' & Hm). eauto.
Qed.

Lemma step_uniqueOperations s s' :
  step s s' ->
  NoDup (operationKeys (balanceLogsColl s)) ->
  NoDup (operationKeys (balanceLogsColl s')).
Proof.
  intros Hstep Hs.
  destruct (step_shape _ _ Hstep)
    as [-> | [(now & c & u & d & ty & rem & op & Hfresh & ->)
           | [(now & c & m & ->) | (now & c & l & ->)]]]; try exact Hs.
  simpl. rewrite operationKeys_app. simpl.
  destruct (String.eqb_spec op "") as [Hop|Hop]; [rewrite app_nil_r; exact Hs|].
  destruct Hfresh as [Hempty|Hnone]; [contradiction|].
  apply NoDup_app. split; [exact Hs|]. split; [|apply NoDup_singleton].
  intros key Hkey Hin. apply list_elem_of_In in Hkey.
  apply list_elem_of_In in Hin. destruct Hin as [<-|[]].
  destruct (operationKeys_in _ _ _ Hkey) as (l & Hl & Hm).
  unfold findLog in Hnone. pose proof (find_none _ _ Hnone l Hl) as Hno. congruence.
Qed.

(** X2. The pair (chat id, operation ID) stays unique among the ledger
    entries with a non-empty operation ID: in every store reached from the
    empty store no two such entries share it, which is what the unique
    partial index of [EnsureIndexes] demands. *)
Theorem operation_ids_stay_unique s :
  later emptyStore s ->
  NoDup (operationKeys (balanceLogsColl s)).
Proof.
  intros Hlater.
  apply (later_invariant (fun s => NoDup (operationKeys (balanceLogsColl s)))
           step_uniqueOperations _ _ Hlater).
  simpl. apply NoDup_nil. trivial.
Qed.

(** X3. The ledger is append-only and balance records are never removed:
    after any number of writes the earlier ledger is a prefix of the
    current one, and every entity that had a record still has one. *)
Theorem ledger_is_append_only s s' :
  later s s' ->
  (exists appended, balanceLogsColl s' = balanceLogsColl s ++ appended)
  /\ (forall chatID, is_Some (GetBalance s chatID) -> is_Some (GetBalance s' chatID)).
Proof.
  intros Hlater. induction Hlater as [s|s1 s2 s3 H12 _ [[ext IHext] IHkeep]].
  - split; [exists []; symmetry; apply app_nil_r | auto].
  - destruct (step_logs_prefix _ _ H12) as [ext1 Hext1]. split.
    + exists (ext1 ++ ext). rewrite IHext, Hext1, app_assoc. reflexivity.
    + intros chatID Hsome. apply IHkeep. unfold GetBalance in *.
      eapply step_balance_kept; eauto.
Qed.

(** X4. In every store reached from the empty store a balance record is
    stored under its own chat id: what [GetBalance] returns for an entity
    is a record of that entity. *)
Theorem get_balance_returns_own_record s chatID b :
  later emptyStore s ->
  GetBalance s chatID = Some b ->
  UpstreamBalance.ChatID b = chatID.
Proof.
  intros Hlater Hget.
  assert (Hinv : keysAgree s).
  { apply (later_invariant keysAgree step_keysAgree _ _ Hlater).
    intros k b'. simpl. rewrite lookup_empty. discriminate. }
  exact (Hinv chatID b Hget).
Qed.

End LedgerInvariants.

Section LedgerSnapshots.

Import Go repository Spec Ledger.

Lemma latest_snoc chatID logs l :
  latest chatID (logs ++ [l])
  = if UpstreamBalanceLog.ChatID l =? chatID then Some l else latest chatID logs.
Proof. unfold latest. rewrite rev_app_distr. reflexivity. Qed.

Lemma snapshotAgrees_setter s chatID b :
  snapshotAgrees s ->
  (forall old, balanceColl s !! chatID = Some old ->
     UpstreamBalance.Balance b = UpstreamBalance.Balance old) ->
  snapshotAgrees (mkStore (<[chatID := b]> (balanceColl s)) (balanceLogsColl s)).
Proof.
  intros Hs Hkeep c l Hl. simpl in *.
  destruct (Hs c l Hl) as (b0 & Hb0 & Heq).
  destruct (decide (chatID = c)) as [->|Hne].
  - rewrite lookup_insert_eq. exists b. split; [reflexivity|].
    rewrite (Hkeep b0 Hb0). exact Heq.
  - rewrite lookup_insert_ne by exact Hne. eauto.
Qed.

Lemma step_snapshotAgrees s s' : step s s' -> snapshotAgrees s -> snapshotAgrees s'.
Proof.
  intros Hstep Hs.
  destruct (step_shape _ _ Hstep)
    as [-> | [(now & c & u & d & ty & rem & op & _ & ->)
           | [(now & c & m & ->) | (now & c & l & ->)]]]; [exact Hs| | |].
  - intros c' l'. simpl. rewrite latest_snoc. simpl.
    destruct (Z.eqb_spec c c') as [->|Hne].
    + intros [= <-]. rewrite lookup_insert_eq. simpl. eauto.
    + rewrite lookup_insert_ne by exact Hne. apply Hs.
  - apply snapshotAgrees_setter; [exact Hs|]. intros old ->. reflexivity.
  - apply snapshotAgrees_setter; [exact Hs|]. intros old ->. reflexivity.
Qed.

(** X5. The [balance_after] of the latest ledger entry of an entity is its
    current balance: in every store reached from the empty store, an entity
    with a ledger entry has a balance record, and the balance on record is
    the snapshot taken by its latest entry (the setters, which write no
    entry, do not move the balance). *)
Theorem balance_after_is_current_balance s chatID l :
  later emptyStore s ->
  latest chatID (balanceLogsColl s) = Some l ->
  exists b,
    GetBalance s chatID = Some b
    /\ UpstreamBalance.Balance b = UpstreamBalanceLog.BalanceAfter l.
Proof.
  intros Hlater Hl.
  assert (Hinv : snapshotAgrees s).
  { apply (later_invariant snapshotAgrees step_snapshotAgrees _ _ Hlater).
    intros c l'. discriminate. }
  exact (Hinv chatID l Hl).
Qed.

Lemma entriesOf_snoc_other chatID other logs l :
  UpstreamBalanceLog.ChatID l = chatID -> other <> chatID ->
  entriesOf other (logs ++ [l]) = entriesOf other logs.
Proof.
  intros Hl Hne. unfold entriesOf. rewrite List.filter_app. simpl.
  destruct (Z.eqb_spec (UpstreamBalanceLog.ChatID l) other); [congruence|].
  apply app_nil_r.
Qed.

(** X6. A write for one entity touches no other: after [AdjustBalance],
    [SetMinBalance] or [SetAlertLimit] for [chatID], the balance record and
    the ledger entries of any other entity are what they were. *)
Theorem writes_leave_other_entities_alone
    now s chatID other userID delta entryType remark operationID min limit :
  other <> chatID ->
  let untouched (s' : Store) :=
    GetBalance s' other = GetBalance s other
    /\ entriesOf other (balanceLogsColl s') = entriesOf other (balanceLogsColl s) in
  untouched (AdjustBalance now s chatID userID delta entryType remark operationID).2
  /\ untouched (SetMinBalance now s chatID min).2
  /\ untouched (SetAlertLimit now s chatID limit).2.
Proof.
  intros Hne untouched. subst untouched. cbv beta.
  assert (Hins : forall b : UpstreamBalance.t,
             <[chatID := b]> (balanceColl s) !! other = balanceColl s !! other).
  { intros b. apply lookup_insert_ne. congruence. }
  assert (Hfresh : let s' := (applyDelta now s chatID userID delta entryType remark
                                operationID).2 in
                   GetBalance s' other = GetBalance s other
                   /\ entriesOf other (balanceLogsColl s')
                      = entriesOf other (balanceLogsColl s)).
  { simpl. split; [apply Hins|]. apply (entriesOf_snoc_other chatID); auto. }
  repeat split; unfold GetBalance; simpl; try apply Hins.
  - unfold AdjustBalance.
    destruct (negb (String.eqb operationID "")); [|apply Hfresh].
    destruct (findLog s chatID operationID); [|apply Hfresh].
    destruct (balanceColl s !! chatID); reflexivity.
  - unfold AdjustBalance.
    destruct (negb (String.eqb operationID "")); [|apply Hfresh].
    destruct (findLog s chatID operationID); [|apply Hfresh].
    destruct (balanceColl s !! chatID); reflexivity.
Qed.

(** X7. The order in which the two thresholds of an entity are configured
    does not matter: setting the minimum balance and then the alert limit
    leaves the same record and the same store as setting the limit and then
    the minimum, the first call at clock reading [now1] and the second at
    [now2] in both orders. *)
Theorem threshold_setters_commute now1 now2 s chatID min limit :
  SetAlertLimit now2 (SetMinBalance now1 s chatID min).2 chatID limit
  = SetMinBalance now2 (SetAlertLimit now1 s chatID limit).2 chatID min.
Proof.
  unfold SetAlertLimit, SetMinBalance. simpl.
  rewrite !lookup_insert_eq, !insert_insert_eq.
  destruct (balanceColl s !! chatID); reflexivity.
Qed.

End LedgerSnapshots.

(** ** Further properties of the service *)

Section ServiceFloats.

Local Open Scope float_scope.

(** [- |x|] is never greater than zero. *)
Lemma neg_abs_not_positive (x : float) : (0 <? - abs x) = false.
Proof.
  rewrite ltb_spec, opp_spec, abs_spec, Prim2SF_zero.
  destruct (Prim2SF x); reflexivity.
Qed.

(** [- |x|] is zero when [x] is. *)
Lemma neg_abs_zero (x : float) : (x =? 0) = true -> (- abs x =? 0) = true.
Proof.
  rewrite !FloatAxioms.eqb_spec, opp_spec, abs_spec, Prim2SF_zero.
  destruct (Prim2SF x) as [sg|sg| |sg m e]; simpl; intros H;
    try reflexivity; try discriminate.
  - destruct sg; discriminate.
  - destruct sg; discriminate.
Qed.

End ServiceFloats.

Section ServiceExtras.

Import Go repository Spec Ledger Settle.

Context {lib : Library} {pay : paymentservice.Service}.

(** A failed [SettleDaily] returns the store it was given. *)
Lemma SettleDaily_err now s group targetDate e s' :
  service.SettleDaily now s group targetDate = (Err e, s') -> s' = s.
Proof.
  unfold service.SettleDaily.
  destruct (length (Group.InterfaceBindings group) =? 0)%nat; [congruence|].
  destruct (service.settleLoop _ _ _ _ _ _) as [[items total]|e']; [|congruence].
  unfold AdjustBalance, applyDelta. simpl. discriminate.
Qed.

(** X8. [SettleDaily] is all or nothing.  When it returns an error the
    store is the one it was given; when it succeeds the ledger has gained
    exactly one entry, for the group, whose delta is the negated deduction
    of the result, the group's record is the one returned, and no other
    entity's record has changed.  A group without bindings gets the "no
    bindings" error whatever the billing collaborator would answer. *)
Theorem settle_daily_all_or_nothing now s group targetDate :
  match service.SettleDaily now s group targetDate with
  | (Err e, s') => s' = s
  | (Ok r, s') =>
      exists entry,
        balanceLogsColl s' = balanceLogsColl s ++ [entry]
        /\ UpstreamBalanceLog.ChatID entry = Group.TelegramID group
        /\ UpstreamBalanceLog.Delta entry = (- service.Deduction r)%float
        /\ UpstreamBalanceLog.BalanceAfter entry
           = UpstreamBalance.Balance (service.Balance r)
        /\ GetBalance s' (Group.TelegramID group) = Some (service.Balance r)
        /\ forall other, other <> Group.TelegramID group ->
             GetBalance s' other = GetBalance s other
  end
  /\ (Group.InterfaceBindings group = [] ->
      service.SettleDaily now s group targetDate = (Err service.errNoBindings, s)).
Proof.
  split.
  - destruct (service.SettleDaily now s group targetDate) as [[r|e] s'] eqn:Hrun.
    + apply SettleDaily_ok in Hrun as (_ & _ & _ & _ & ->).
      eexists. split; [reflexivity|]. unfold GetBalance. simpl.
      rewrite lookup_insert_eq. repeat split.
      intros other Hne. apply lookup_insert_ne. congruence.
    + unfold service.SettleDaily in Hrun.
      destruct (length (Group.InterfaceBindings group) =? 0)%nat; [congruence|].
      destruct (service.settleLoop _ _ _ _ _ _) as [[items total]|e']; [|congruence].
      unfold AdjustBalance, applyDelta in Hrun. simpl in Hrun. discriminate.
  - intros Hnone. unfold service.SettleDaily. rewrite Hnone. reflexivity.
Qed.

Lemma amountOfItems_none items dateStr :
  List.find (matchesDay dateStr) items = None ->
  service.amountOfItems items dateStr = 0%float.
Proof.
  induction items as [|[i|] rest IH]; simpl; [reflexivity| |exact IH].
  destruct (String.eqb _ dateStr); simpl; [discriminate|exact IH].
Qed.

(** X9. A day without line item costs nothing: when the summary of a
    binding is nil or has no non-nil item whose date normalises to the
    target day, [settleBinding] reports the gross amount 0 and no error,
    and a deduction of zero for every finite rate. *)
Theorem no_line_item_for_the_day_is_zero binding start end_ targetDate summary :
  paymentservice.GetSummaryByDayByPZID (InterfaceBinding.ID binding) start end_
  = Ok summary ->
  noItemForDay summary targetDate ->
  service.parseAmountFromSummary summary targetDate = 0%float
  /\ exists item,
       service.settleBinding binding start end_ targetDate = Ok item
       /\ UpstreamSettlementItem.GrossAmount item = 0%float
       /\ (finite (UpstreamSettlementItem.RatePercent item) = true ->
           (UpstreamSettlementItem.Deduction item =? 0)%float = true).
Proof.
  intros Hq Hnone.
  assert (Hzero : service.parseAmountFromSummary summary targetDate = 0%float).
  { destruct summary as [sm|]; [|reflexivity]. apply amountOfItems_none, Hnone. }
  split; [exact Hzero|].
  exists (itemOf binding summary targetDate).
  split; [apply settleBinding_ok; exists summary; auto|].
  unfold itemOf; simpl. rewrite Hzero.
  split; [reflexivity|]. apply zero_times_finite.
Qed.

Lemma find_first {A} (f : A -> bool) (before : list A) (x : A) (after : list A) :
  Forall (fun a => f a = false) before -> f x = true ->
  List.find f (before ++ x :: after) = Some x.
Proof.
  intros Hbefore Hx. induction Hbefore as [|a before Ha _ IH]; simpl.
  - rewrite Hx. reflexivity.
  - rewrite Ha. exact IH.
Qed.

(** X10. The first line item of the day decides, and the rest of the
    summary is not read: whatever follows it, later items of the same day
    included, the gross amount is the amount of the first non-nil item
    whose date normalises to the target day. *)
Theorem first_line_item_of_the_day_decides sm before item after amount targetDate :
  paymentservice.Items sm = before ++ Some item :: after ->
  Forall (fun o => matchesDay (Format targetDate service.dayLayout) o = false) before ->
  matchesDay (Format targetDate service.dayLayout) (Some item) = true ->
  ParseFloat (TrimSpace (paymentservice.GrossAmount item)) = Some amount ->
  service.parseAmountFromSummary (Some sm) targetDate = amount.
Proof.
  intros Hitems Hbefore Hitem Hparse. simpl.
  rewrite (amountOfItems_first _ _ item).
  - rewrite Hparse. reflexivity.
  - rewrite Hitems. apply find_first; assumption.
Qed.

End ServiceExtras.

Section ServiceAdjust.

Import Go repository Spec Watch.

(** X11. An adjustment by zero reads and does not write: for an amount
    equal to zero (either zero of binary64), [Add] and [Subtract] return
    the record [GetBalance] returns, [nil] for an entity without record,
    with its warning flag, and leave balances and ledger as they were. *)
Theorem zero_amount_writes_nothing now s chatID userID amount :
  (amount =? 0)%float = true ->
  let current := GetBalance s chatID in
  service.Add now s chatID userID amount
  = ((current, service.shouldWarn current, None), s)
  /\ service.Subtract now s chatID userID amount
     = ((current, service.shouldWarn current, None), s).
Proof.
  intros Hzero current. unfold service.Add, service.Subtract, service.adjust.
  rewrite Hzero, (neg_abs_zero _ Hzero). split; reflexivity.
Qed.

(** X12. [Subtract] never credits: whatever the sign of the amount it is
    given, the store is left as it was or gains exactly one ledger entry,
    of type [manual_subtract] and with delta [-|amount|], which is not
    greater than zero; the balance on record is the one returned. *)
Theorem subtract_never_credits now s chatID userID amount :
  let '(r, s') := service.Subtract now s chatID userID amount in
  s' = s
  \/ exists entry b,
       balanceLogsColl s' = balanceLogsColl s ++ [entry]
       /\ UpstreamBalanceLog.Type_ entry = "manual_subtract"
       /\ UpstreamBalanceLog.Delta entry = (- abs amount)%float
       /\ (0 <? UpstreamBalanceLog.Delta entry)%float = false
       /\ r = (Some b, service.shouldWarn (Some b), None)
       /\ GetBalance s' chatID = Some b
       /\ UpstreamBalanceLog.BalanceAfter entry = UpstreamBalance.Balance b.
Proof.
  unfold service.Subtract, service.adjust.
  destruct (- abs amount =? 0)%float; [left; reflexivity|].
  unfold AdjustBalance, applyDelta. simpl. right.
  eexists _, _. split; [reflexivity|]. simpl.
  repeat split; try apply neg_abs_not_positive.
  unfold GetBalance. simpl. apply lookup_insert_eq.
Qed.

(** X13. The warning flag of the service and the alert of the watcher are
    the same test: for an entity the watcher holds no state for,
    [shouldWarn] is true for a balance record exactly when the watcher,
    evaluating that record, delivers an alert for it. *)
Theorem should_warn_matches_first_alert now states b :
  states !! UpstreamBalance.ChatID b = None ->
  service.shouldWarn (Some b) = true
  <-> (telegram.evaluateBalance now states (Some b)).2 = [b].
Proof.
  intros Hfresh. unfold service.shouldWarn.
  destruct (UpstreamBalance.MinBalance b <=? 0)%float eqn:Hmin.
  - unfold telegram.evaluateBalance. rewrite Hmin. simpl. split; discriminate.
  - rewrite (evaluateBalance_first now states b Hmin Hfresh). cbv zeta.
    destruct (UpstreamBalance.Balance b <? UpstreamBalance.MinBalance b)%float; simpl.
    + pose proof (limitOf_pos b) as Hpos.
      destruct (Z.leb_spec (limitOf b) 0); [lia|]. simpl. split; reflexivity.
    + split; discriminate.
Qed.

End ServiceAdjust.

(** ** Further properties of the watcher *)

Section WatcherExtras.

Import Go Spec telegram Watch.

(** What one evaluation of a monitored balance does, by cases. *)
Lemma evaluateBalance_monitored now states b :
  monitored b = true ->
  let chat := UpstreamBalance.ChatID b in
  let st := windowed now (default newState (states !! chat)) in
  evaluateBalance now states (Some b)
  = if negb (isLow b)
    then (<[chat := mkState false (windowStart st) (sentCount st)]> states, [])
    else if low st then (<[chat := st]> states, [])
    else if limitOf b <=? sentCount st then (<[chat := st]> states, [])
    else (<[chat := mkState true (windowStart st) (sentCount st + 1)]> states, [b]).
Proof.
  unfold monitored. intros Hmon. apply negb_true_iff in Hmon.
  unfold evaluateBalance, windowed, limitOf, isLow. rewrite Hmon. reflexivity.
Qed.

Lemma evaluateBalance_unmonitored now states b :
  monitored b = false -> evaluateBalance now states (Some b) = (states, []).
Proof.
  unfold monitored. intros Hmon. apply negb_false_iff in Hmon.
  unfold evaluateBalance. rewrite Hmon. reflexivity.
Qed.

Lemma windowed_low now st : low (windowed now st) = low st.
Proof. unfold windowed. destruct (_ || _); reflexivity. Qed.

(** One evaluation delivers nothing or the balance it was given, and then
    the balance is monitored and low; it rewrites the state of that entity
    at most. *)
Lemma evaluateBalance_effect now states balance :
  let '(states', sent) := evaluateBalance now states balance in
  (sent = []
   \/ exists b, balance = Some b /\ sent = [b]
        /\ monitored b = true /\ isLow b = true)
  /\ forall other,
       (forall b, balance = Some b -> UpstreamBalance.ChatID b <> other) ->
       states' !! other = states !! other.
Proof.
  destruct balance as [b|]; [|simpl; auto].
  destruct (monitored b) eqn:Hmon.
  - rewrite (evaluateBalance_monitored now states b Hmon). cbv zeta.
    assert (Hframe : forall st' other,
               (forall b0, Some b = Some b0 -> UpstreamBalance.ChatID b0 <> other) ->
               <[UpstreamBalance.ChatID b := st']> states !! other = states !! other).
    { intros st' other Hne. apply lookup_insert_ne. apply Hne. reflexivity. }
    destruct (isLow b) eqn:Hlow; simpl; [|auto].
    destruct (low _); [auto|].
    destruct (limitOf b <=? _); [auto|].
    split; [right; exists b; auto | auto].
  - rewrite (evaluateBalance_unmonitored now states b Hmon). auto.
Qed.

Lemma evaluateAll_app obs1 obs2 states :
  evaluateAll (obs1 ++ obs2) states
  = let '(states1, sent1) := evaluateAll obs1 states in
    let '(states2, sent2) := evaluateAll obs2 states1 in
    (states2, sent1 ++ sent2).
Proof.
  revert states. induction obs1 as [|[now balance] obs1 IH]; intros states; simpl.
  - destruct (evaluateAll obs2 states). reflexivity.
  - destruct (evaluateBalance now states balance) as [states1 sent1].
    rewrite IH.
    destruct (evaluateAll obs1 states1) as [states2 sent2].
    destruct (evaluateAll obs2 states2) as [states3 sent3].
    rewrite app_assoc. reflexivity.
Qed.

Lemma run_observationsOf events states :
  run events states = evaluateAll (observationsOf events) states.
Proof.
  revert states. induction events as [|e events IH]; intros states; [reflexivity|].
  unfold observationsOf. simpl. fold (observationsOf events).
  rewrite evaluateAll_app.
  destruct e as [now balance|[obs|err]]; simpl.
  - destruct (evaluateBalance now states balance) as [states1 sent1].
    rewrite IH. destruct (evaluateAll _ states1). rewrite app_nil_r. reflexivity.
  - destruct (evaluateAll obs states) as [states1 sent1]. rewrite IH. reflexivity.
  - rewrite IH. destruct (evaluateAll _ states). reflexivity.
Qed.

(** X14. The periodic scan and the change channel funnel into the same
    evaluation: running the loop over any events is evaluating, in order,
    the values received and the balances listed at each tick (a tick whose
    listing failed contributes nothing); so a scan that lists a balance
    does what receiving that balance on the channel does. *)
Theorem run_is_evaluation_of_observations events states :
  run events states = evaluateAll (observationsOf events) states
  /\ forall now balance,
       run [Tick (Ok [(now, balance)])] states = run [Changed now balance] states.
Proof.
  split; [apply run_observationsOf|].
  intros now balance. rewrite !run_observationsOf. reflexivity.
Qed.

Lemma evaluateAll_alerts obs states b :
  In b (evaluateAll obs states).2 ->
  monitored b = true /\ isLow b = true /\ exists now, In (now, Some b) obs.
Proof.
  revert states. induction obs as [|[now balance] obs IH]; intros states; simpl; [intros []|].
  pose proof (evaluateBalance_effect now states balance) as Heff.
  destruct (evaluateBalance now states balance) as [states1 sent1].
  specialize (IH states1).
  destruct (evaluateAll obs states1) as [states2 sent2]. simpl in *.
  intros Hin. apply in_app_or in Hin as [Hin|Hin].
  - destruct Heff as [[->|(b0 & -> & -> & Hmon & Hlow)] _]; [destruct Hin|].
    destruct Hin as [<-|[]]. eauto.
  - destruct (IH Hin) as (Hmon & Hlow & now' & Hobs). eauto.
Qed.

(** X15. The watcher never alerts for a healthy or unmonitored balance:
    every alert the loop delivers is for a balance record that was
    observed, on the channel or in a scan, whose threshold is positive and
    whose balance is under it. *)
Theorem alerts_only_for_low_balances events states b :
  In b (run events states).2 ->
  monitored b = true
  /\ isLow b = true
  /\ exists now, In (now, Some b) (observationsOf events).
Proof.
  rewrite run_observationsOf. apply evaluateAll_alerts.
Qed.

(** X16. Entities are watched independently: an evaluation for one entity
    leaves the alert state of every other entity as it was. *)
Theorem watcher_entities_independent now states b other :
  other <> UpstreamBalance.ChatID b ->
  (evaluateBalance now states (Some b)).1 !! other = states !! other.
Proof.
  intros Hne.
  pose proof (evaluateBalance_effect now states (Some b)) as Heff.
  destruct (evaluateBalance now states (Some b)) as [states' sent].
  destruct Heff as [_ Hframe]. simpl. apply Hframe.
  intros b0 [= <-]. congruence.
Qed.

End WatcherExtras.

(** ** The change stream *)

Section ChangeStream.

Import Go repository Spec telegram LedgerStore.







End ChangeStream.

(** The scenario of the specification on the modelled [Adjust]: the debit
    under [d1] is published, its replay is not, and a full stream drops the
    record of a further debit while the write goes through. *)
Example adjust_publishes_scenario :
  let b1 := UpstreamBalance.mk 1 150%float 200%float 0 0 10 in
  let s1 :=
    repository.mkStore {[ 1 := b1 ]}
      [UpstreamBalanceLog.mk 1 7 (-350)%float 150%float "manual_subtract" "" "d1" 10] in
  LedgerStore.Adjust 1 10 Sample.funded [] 1 7 (-350)%float "manual_subtract" "" "d1"
  = (Go.Ok b1, s1, [b1])
  /\ LedgerStore.Adjust 1 20 s1 [] 1 7 (-350)%float "manual_subtract" "" "d1"
     = (Go.Ok b1, s1, [])
  /\ (LedgerStore.Adjust 1 20 s1 [b1] 1 7 (-50)%float "manual_subtract" "" "").2 = [b1]
  /\ (LedgerStore.Adjust 1 20 s1 [b1] 1 7 (-50)%float "manual_subtract" "" "").1
     = repository.AdjustBalance 20 s1 1 7 (-50)%float "manual_subtract" "" "".
Proof. repeat split; vm_compute; reflexivity. Qed.

Section WatcherWindows.

Import Go Spec telegram Watch.

(** X17. Hysteresis: once an entity is marked low, no alert is delivered
    for it, and it stays marked low, as long as no monitored observation of
    it is at or above the threshold - whatever the clock readings, window
    resets included, whatever the limit, and also across observations with
    monitoring switched off, which leave the mark in place. *)
Theorem no_alert_while_marked_low obs : forall states chatID st,
  states !! chatID = Some st ->
  low st = true ->
  Forall (noRecovery chatID) obs ->
  let '(states', sent) := evaluateAll obs states in
  (exists st', states' !! chatID = Some st' /\ low st' = true)
  /\ forall b, In b sent -> UpstreamBalance.ChatID b <> chatID.
Proof.
  induction obs as [|[now balance] obs IH]; intros states chatID st Hst Hlow Hall; simpl.
  - split; [eauto | intros b []].
  - inversion Hall as [|o obs' Hquiet Hall']; subst.
    assert (Hstep : exists st1,
               (evaluateBalance now states balance).1 !! chatID = Some st1
               /\ low st1 = true
               /\ forall b, In b (evaluateBalance now states balance).2 ->
                    UpstreamBalance.ChatID b <> chatID).
    { destruct balance as [b|]; [|simpl; exists st; auto].
      destruct (monitored b) eqn:Hmon;
        [|rewrite (evaluateBalance_unmonitored now states b Hmon); simpl;
          exists st; auto].
      destruct (decide (UpstreamBalance.ChatID b = chatID)) as [Hchat|Hne].
      - pose proof (Hquiet b eq_refl Hchat Hmon) as Hislow.
        rewrite (evaluateBalance_monitored now states b Hmon). cbv zeta.
        rewrite Hislow, Hchat, Hst. simpl. rewrite windowed_low, Hlow.
        simpl. rewrite lookup_insert_eq.
        eexists. split; [reflexivity|]. split; [|intros b0 []].
        rewrite windowed_low. exact Hlow.
      - pose proof (evaluateBalance_effect now states (Some b)) as Heff.
        destruct (evaluateBalance now states (Some b)) as [states1 sent1].
        destruct Heff as [Hsent Hframe]. simpl.
        exists st. split; [|split; [exact Hlow|]].
        + rewrite Hframe; [exact Hst|]. intros b0 [= <-]. exact Hne.
        + intros b0 Hin.
          destruct Hsent as [->|(b1 & [= <-] & -> & _)]; [destruct Hin|].
          destruct Hin as [<-|[]]. exact Hne. }
    destruct (evaluateBalance now states balance) as [states1 sent1].
    destruct Hstep as (st1 & Hst1 & Hlow1 & Hsent1). simpl in *.
    specialize (IH states1 chatID st1 Hst1 Hlow1 Hall').
    destruct (evaluateAll obs states1) as [states2 sent2].
    destruct IH as [Hfinal Hsent2]. split; [exact Hfinal|].
    intros b Hin. apply in_app_or in Hin as [Hin|Hin]; auto.
Qed.

(** One evaluation of the entity inside its running window. *)
Lemma evaluateBalance_running now states chatID limit st o :
  states !! chatID = Some st ->
  IsZero (windowStart st) = false ->
  observes chatID limit (now, o) ->
  inWindow (windowStart st) (now, o) ->
  sentCount st <= limit ->
  let '(states', sent) := evaluateBalance now states o in
  exists st',
    states' !! chatID = Some st'
    /\ windowStart st' = windowStart st
    /\ sentCount st' = sentCount st + Z.of_nat (length sent)
    /\ sentCount st' <= limit.
Proof.
  intros Hst Hzero (b & Hb & Hchat & Hlimit) Hwin Hcount. simpl in Hb, Hwin.
  subst o. unfold inWindow in Hwin. simpl in Hwin.
  destruct (UpstreamBalance.MinBalance b <=? 0)%float eqn:Hmin.
  - unfold evaluateBalance. rewrite Hmin. exists st. simpl. repeat split; auto; lia.
  - rewrite <- Hchat in Hst.
    rewrite (evaluateBalance_in_window now states b st Hmin Hst Hzero Hwin).
    cbv zeta. rewrite Hlimit.
    destruct (negb _); [|destruct (low st); [|destruct (Z.leb_spec limit (sentCount st))]].
    + rewrite Hchat, lookup_insert_eq. eexists. split; [reflexivity|].
      simpl. repeat split; lia.
    + rewrite Hchat in Hst. exists st. simpl. repeat split; auto; lia.
    + rewrite Hchat in Hst. exists st. simpl. repeat split; auto; lia.
    + rewrite Hchat, lookup_insert_eq. eexists. split; [reflexivity|].
      simpl. repeat split; lia.
Qed.

(** X18. The hourly limit holds inside a window: for observations of one
    entity under one limit, all read while its window is running, the count
    of the window grows by exactly the number of alerts delivered and never
    passes the limit; an entity with [sentCount] alerts behind it gets at
    most [limit - sentCount] more. *)
Theorem alerts_per_window_bounded obs : forall states chatID limit st,
  states !! chatID = Some st ->
  IsZero (windowStart st) = false ->
  sentCount st <= limit ->
  Forall (observes chatID limit) obs ->
  Forall (inWindow (windowStart st)) obs ->
  let '(states', sent) := evaluateAll obs states in
  exists st',
    states' !! chatID = Some st'
    /\ windowStart st' = windowStart st
    /\ sentCount st' = sentCount st + Z.of_nat (length sent)
    /\ Z.of_nat (length sent) <= limit - sentCount st.
Proof.
  induction obs as [|[now o] obs IH];
    intros states chatID limit st Hst Hzero Hcount Hobs Hwin; simpl.
  - exists st. simpl. repeat split; auto; lia.
  - inversion Hobs as [|? ? Ho Hobs']; subst. inversion Hwin as [|? ? Hw Hwin']; subst.
    pose proof (evaluateBalance_running now states chatID limit st o Hst Hzero Ho Hw Hcount)
      as Hstep.
    destruct (evaluateBalance now states o) as [states1 sent1].
    destruct Hstep as (st1 & Hst1 & Hws1 & Hcount1 & Hle1).
    assert (Hzero1 : IsZero (windowStart st1) = false) by (rewrite Hws1; exact Hzero).
    rewrite <- Hws1 in Hwin'.
    specialize (IH states1 chatID limit st1 Hst1 Hzero1 Hle1 Hobs' Hwin').
    destruct (evaluateAll obs states1) as [states2 sent2].
    destruct IH as (st2 & Hst2 & Hws2 & Hcount2 & Hle2).
    exists st2. rewrite length_app, Nat2Z.inj_add.
    repeat split; [exact Hst2 | congruence | lia | lia].
Qed.

(** X19. A new window alerts again: for an entity that is not marked low,
    a monitored low observation read an hour or more after the start of
    its window is alerted whatever the count of the old window was; the
    window restarts at the clock reading with a count of one. *)
Theorem expired_window_alerts_again now states b st :
  states !! UpstreamBalance.ChatID b = Some st ->
  low st = false ->
  Hour <= Sub now (windowStart st) ->
  monitored b = true ->
  isLow b = true ->
  evaluateBalance now states (Some b)
  = (<[UpstreamBalance.ChatID b := mkState true now 1]> states, [b]).
Proof.
  intros Hst Hlow Hexpired Hmon Hislow.
  rewrite (evaluateBalance_monitored now states b Hmon). cbv zeta.
  rewrite Hislow, Hst. simpl. unfold windowed.
  destruct (Z.leb_spec Hour (Sub now (windowStart st))) as [_|Hlt]; [|lia].
  rewrite orb_true_r. simpl. rewrite Hlow.
  pose proof (limitOf_pos b) as Hpos.
  destruct (Z.leb_spec (limitOf b) 0); [lia|]. reflexivity.
Qed.

(** X20. Recovery re-arms the alert: inside a running window with the
    limit not yet reached, a monitored observation at or above the
    threshold followed by a monitored observation under it delivers exactly
    one alert, for the second, whether or not the entity was marked low
    before. *)
Theorem recovery_rearms_alert t1 t2 states st b1 b2 :
  states !! UpstreamBalance.ChatID b1 = Some st ->
  UpstreamBalance.ChatID b2 = UpstreamBalance.ChatID b1 ->
  IsZero (windowStart st) = false ->
  Sub t1 (windowStart st) < Hour ->
  Sub t2 (windowStart st) < Hour ->
  monitored b1 = true -> isLow b1 = false ->
  monitored b2 = true -> isLow b2 = true ->
  sentCount st < limitOf b2 ->
  evaluateAll [(t1, Some b1); (t2, Some b2)] states
  = (<[UpstreamBalance.ChatID b1 := mkState true (windowStart st) (sentCount st + 1)]>
       states,
     [b2]).
Proof.
  intros Hst Hchat Hzero Hw1 Hw2 Hmon1 Hlow1 Hmon2 Hlow2 Hcount.
  unfold monitored in Hmon1, Hmon2.
  apply negb_true_iff in Hmon1. apply negb_true_iff in Hmon2.
  unfold isLow in Hlow1, Hlow2.
  cbn [evaluateAll].
  rewrite (evaluateBalance_in_window t1 states b1 st Hmon1 Hst Hzero Hw1).
  cbv zeta. rewrite Hlow1. cbn [negb].
  rewrite (evaluateBalance_in_window t2 _ b2 (mkState false (windowStart st) (sentCount st)));
    [|exact Hmon2|rewrite Hchat; apply lookup_insert_eq|exact Hzero|exact Hw2].
  cbv zeta. rewrite Hlow2. cbn [negb low sentCount windowStart].
  destruct (Z.leb_spec (limitOf b2) (sentCount st)); [lia|].
  rewrite Hchat, insert_insert_eq. reflexivity.
Qed.

End WatcherWindows.

(** ** The retry loop of the daily scheduler *)

Section SchedulerExtras.

Import Go repository Spec Retry scheduler.

Context {lib : Library}.

Variable isCancel : string -> bool.
Variable envs : Z -> attemptEnv.

(** A successful [SettleDaily] appends the entry of its result. *)
Lemma SettleDaily_entry {pay : paymentservice.Service} now s group targetDate r s' :
  service.SettleDaily now s group targetDate = (Ok r, s') ->
  balanceLogsColl s' = balanceLogsColl s ++ [entryOf group r].
Proof.
  intros H. apply SettleDaily_ok in H as (_ & _ & Htarget & Hbal & ->). simpl.
  unfold entryOf, settlementEntry. rewrite Htarget, Hbal.
  destruct (balanceColl s !! Group.TelegramID group); reflexivity.
Qed.

(** The loop from any attempt on: what it hands to the delivery and what
    it writes. *)
Lemma settleAttempts_ledger remaining : forall attempts s sent group targetDate,
  let '(err, s', sent') :=
    settleAttempts isCancel envs remaining attempts s sent group targetDate in
  exists new,
    sent' = sent ++ new
    /\ balanceLogsColl s' = balanceLogsColl s ++ List.map (entryOf group) new
    /\ (length new <= remaining)%nat
    /\ (err = None -> new <> []).
Proof.
  induction remaining as [|remaining IH]; intros attempts s sent group targetDate.
  - simpl. exists []. rewrite !app_nil_r.
    split; [reflexivity|]. split; [reflexivity|]. split; [simpl; lia|discriminate].
  - cbn [settleAttempts].
    destruct (service.SettleDaily _ s group targetDate) as [[r|e] s1] eqn:Hrun.
    + pose proof (SettleDaily_entry _ _ _ _ _ _ Hrun) as Hlog.
      destruct (envSendErr (envs (attempts + 1))) as [sendErr|].
      * destruct (isCancel sendErr).
        -- exists [r]. simpl.
           split; [reflexivity|]. split; [exact Hlog|]. split; [lia|discriminate].
        -- specialize (IH (attempts + 1) s1 (sent ++ [r]) group targetDate).
           destruct (settleAttempts _ _ _ _ _ _ _ _) as [[err s'] sent'].
           destruct IH as (new & -> & Hlogs & Hlen & Hok).
           exists (r :: new). rewrite <- app_assoc. simpl.
           split; [reflexivity|]. split; [|split; [lia|discriminate]].
           rewrite Hlogs, Hlog, <- app_assoc. reflexivity.
      * exists [r]. simpl.
        split; [reflexivity|]. split; [exact Hlog|]. split; [lia|discriminate].
    + apply SettleDaily_err in Hrun as ->.
      destruct (isCancel e).
      * exists []. rewrite !app_nil_r.
        split; [reflexivity|]. split; [reflexivity|]. split; [simpl; lia|discriminate].
      * specialize (IH (attempts + 1) s sent group targetDate).
        destruct (settleAttempts _ _ _ _ _ _ _ _) as [[err s'] sent'].
        destruct IH as (new & -> & Hlogs & Hlen & Hok).
        exists new. split; [reflexivity|]. split; [exact Hlogs|]. split; [lia|exact Hok].
Qed.

(** X21. Every delivery attempt of a settlement task stands for a debit:
    [settleForGroup] writes exactly one ledger entry per result it hands
    to the delivery, whether that delivery succeeds or not, and nothing
    else; it makes at most three such attempts, and it returns without
    error only after at least one. *)
Theorem every_delivery_attempt_is_a_debit s group targetDate :
  let '(err, s', sent) := settleForGroup isCancel envs s group targetDate in
  balanceLogsColl s' = balanceLogsColl s ++ List.map (entryOf group) sent
  /\ (length sent <= 3)%nat
  /\ (err = None -> sent <> []).
Proof.
  unfold settleForGroup.
  pose proof (settleAttempts_ledger 3 0 s [] group targetDate) as H.
  destruct (settleAttempts _ _ _ _ _ _ _ _) as [[err s'] sent].
  destruct H as (new & -> & Hlogs & Hlen & Hok). simpl. auto.
Qed.

(** X22. A failed delivery debits again: when the first attempt settles
    the group and the delivery of its report fails with an error that is
    no cancellation, the second attempt runs [SettleDaily] once more; if it
    settles and its report is delivered, the task ends without error with
    two settlement entries in the ledger, and the balance has been debited
    by both deductions. *)
Theorem failed_delivery_debits_again s group targetDate r1 s1 r2 s2 sendErr :
  settlesAt envs 1 s group targetDate = (Ok r1, s1) ->
  envSendErr (envs 1) = Some sendErr ->
  isCancel sendErr = false ->
  settlesAt envs 2 s1 group targetDate = (Ok r2, s2) ->
  envSendErr (envs 2) = None ->
  settleForGroup isCancel envs s group targetDate = (None, s2, [r1; r2])
  /\ balanceLogsColl s2
     = balanceLogsColl s ++ [entryOf group r1; entryOf group r2]
  /\ UpstreamBalance.Balance (service.Balance r2)
     = (UpstreamBalance.Balance (service.Balance r1) + - service.Deduction r2)%float.
Proof.
  unfold settlesAt. intros H1 Hsend1 Hnc H2 Hsend2.
  split; [|split].
  - unfold settleForGroup. cbn [settleAttempts]. change (0 + 1) with 1.
    rewrite H1, Hsend1, Hnc. change (1 + 1) with 2. rewrite H2, Hsend2. reflexivity.
  - rewrite (SettleDaily_entry _ _ _ _ _ _ H2), (SettleDaily_entry _ _ _ _ _ _ H1).
    rewrite <- app_assoc. reflexivity.
  - apply SettleDaily_ok in H1 as (_ & _ & _ & _ & ->).
    apply SettleDaily_ok in H2 as (_ & _ & _ & Hb2 & _).
    rewrite Hb2. simpl. rewrite lookup_insert_eq. reflexivity.
Qed.

(** X23. Three failures and the task gives up: when [SettleDaily] fails at
    each of the three attempts with an error that is no cancellation, the
    task returns "upstream settlement failed after 3 attempts", hands
    nothing to the delivery and leaves the store as it was. *)
Theorem three_failures_give_up s group targetDate :
  (forall n, 1 <= n <= 3 ->
     exists e, (settlesAt envs n s group targetDate).1 = Err e /\ isCancel e = false) ->
  settleForGroup isCancel envs s group targetDate
  = (Some "upstream settlement failed after 3 attempts", s, []).
Proof.
  intros Hfail.
  assert (Hstep : forall n, 1 <= n <= 3 ->
             exists e, settlesAt envs n s group targetDate = (Err e, s)
               /\ isCancel e = false).
  { intros n Hn. destruct (Hfail n Hn) as (e & He & Hc). exists e. split; [|exact Hc].
    destruct (settlesAt envs n s group targetDate) as [r s'] eqn:Hrun.
    simpl in He. subst r. unfold settlesAt in Hrun.
    rewrite (SettleDaily_err _ _ _ _ _ _ Hrun). reflexivity. }
  unfold settlesAt in Hstep.
  destruct (Hstep 1 ltac:(lia)) as (e1 & H1 & Hc1).
  destruct (Hstep 2 ltac:(lia)) as (e2 & H2 & Hc2).
  destruct (Hstep 3 ltac:(lia)) as (e3 & H3 & Hc3).
  unfold settleForGroup. cbn [settleAttempts].
  change (0 + 1) with 1. rewrite H1, Hc1.
  change (1 + 1) with 2. rewrite H2, Hc2.
  change (2 + 1) with 3. rewrite H3, Hc3. reflexivity.
Qed.

(** X24. A cancellation stops the retries at once, and yet keeps what was
    written: a cancellation error of the first [SettleDaily] is returned
    as it is with the store untouched; a cancellation error of the first
    delivery is returned as it is with the debit of that attempt in the
    ledger and no second attempt. *)
Theorem cancellation_stops_retries s group targetDate e :
  isCancel e = true ->
  (forall s', settlesAt envs 1 s group targetDate = (Err e, s') ->
     settleForGroup isCancel envs s group targetDate = (Some e, s, []))
  /\ (forall r1 s1,
        settlesAt envs 1 s group targetDate = (Ok r1, s1) ->
        envSendErr (envs 1) = Some e ->
        settleForGroup isCancel envs s group targetDate = (Some e, s1, [r1])
        /\ balanceLogsColl s1 = balanceLogsColl s ++ [entryOf group r1]).
Proof.
  unfold settlesAt. intros Hc. split.
  - intros s' H1. unfold settleForGroup. cbn [settleAttempts]. change (0 + 1) with 1.
    rewrite H1, Hc. rewrite (SettleDaily_err _ _ _ _ _ _ H1). reflexivity.
  - intros r1 s1 H1 Hsend. split; [|exact (SettleDaily_entry _ _ _ _ _ _ H1)].
    unfold settleForGroup. cbn [settleAttempts]. change (0 + 1) with 1.
    rewrite H1, Hsend, Hc. reflexivity.
Qed.

End SchedulerExtras.

Section FilterExtras.

Import scheduler.

Variable GroupTier : Type.
Variable isUpstream : GroupTier -> bool.

(** X25. What the scheduler dispatches: [filterUpstreamGroups] keeps, in
    listing order, exactly the listed groups that are not nil, are of the
    upstream tier and have at least one interface binding, so the
    settlement of a dispatched group never meets the "no bindings" exit. *)
Theorem dispatched_groups_have_bindings groups :
  filterUpstreamGroups GroupTier isUpstream groups
  = List.filter
      (fun g => isUpstream g.1 && negb (List.length (Group.InterfaceBindings g.2) =? 0)%nat)
      (omap id groups)
  /\ forall g, In g (filterUpstreamGroups GroupTier isUpstream groups) ->
       In (Some g) groups
       /\ isUpstream g.1 = true
       /\ Group.InterfaceBindings g.2 <> [].
Proof.
  assert (Heq : filterUpstreamGroups GroupTier isUpstream groups
                = List.filter
                    (fun g => isUpstream g.1
                              && negb (List.length (Group.InterfaceBindings g.2) =? 0)%nat)
                    (omap id groups)).
  { induction groups as [|[g|] groups IH]; simpl; [reflexivity| |exact IH].
    destruct (isUpstream g.1); simpl; [|exact IH].
    destruct (length (Group.InterfaceBindings g.2) =? 0)%nat; simpl; [exact IH|].
    rewrite IH. reflexivity. }
  split; [exact Heq|].
  intros g Hin. rewrite Heq in Hin. apply List.filter_In in Hin as [Hin Hkeep].
  apply andb_prop in Hkeep as [Hup Hlen].
  repeat split; [|exact Hup|].
  - apply list_elem_of_In in Hin. apply list_elem_of_omap in Hin as (o & Ho & Hid).
    simpl in Hid. subst o. apply list_elem_of_In. exact Ho.
  - intros Hnil. rewrite Hnil in Hlen. discriminate.
Qed.

End FilterExtras.

(** ** The further properties at concrete inputs *)

Lemma sample_opened : Spec.later repository.emptyStore Sample2.opened.
Proof.
  apply rtc_once.
  apply (Spec.step_adjust 10 repository.emptyStore 1 7 500%float "manual_add" "" "op1"
           (Go.Ok (UpstreamBalance.mk 1 500%float 0%float 0 10 10))).
  vm_compute. reflexivity.
Qed.

Lemma sample_opened2 : Spec.later Sample2.opened Sample2.opened2.
Proof.
  apply rtc_once.
  apply (Spec.step_adjust 20 Sample2.opened 2 8 (-30)%float "manual_subtract" "" ""
           (Go.Ok (UpstreamBalance.mk 2 (-30)%float 0%float 0 20 20))).
  vm_compute. reflexivity.
Qed.

Lemma reachable_adjust_never_fails_witness :
  exists b s',
    repository.AdjustBalance 30 Sample2.opened 1 7 (-350)%float "manual_subtract" "" "op1"
    = (Go.Ok b, s').
Proof.
  exact (proj2 (reachable_adjust_never_fails Sample2.opened sample_opened)
           30 1 7 (-350)%float "manual_subtract" "" "op1").
Defined.

Lemma later_adjust s now chatID userID delta entryType remark operationID :
  Spec.later s
    (repository.AdjustBalance now s chatID userID delta entryType remark operationID).2.
Proof.
  apply rtc_once.
  eapply (Spec.step_adjust now s chatID userID delta entryType remark operationID).
  apply surjective_pairing.
Qed.

Lemma sample_busy : Spec.later repository.emptyStore Sample2.busy.
Proof.
  unfold Sample2.busy, Spec.later.
  etrans; [apply later_adjust|]. fold Sample2.busy1.
  etrans; [apply later_adjust|]. fold Sample2.busy2.
  etrans; [apply later_adjust|]. fold Sample2.busy3.
  etrans; [apply later_adjust|]. fold Sample2.busy4.
  apply later_adjust.
Qed.

(** A ledger of four entries: three carry an operation ID, [op1] for two
    entities and [op2]; the replay of [op1] for entity 1 added none. *)
Lemma operation_ids_stay_unique_witness :
  Ledger.operationKeys (repository.balanceLogsColl Sample2.busy)
  = [(1, "op1"); (1, "op2"); (2, "op1")]
  /\ length (repository.balanceLogsColl Sample2.busy) = 4%nat
  /\ NoDup (Ledger.operationKeys (repository.balanceLogsColl Sample2.busy)).
Proof.
  split; [vm_compute; reflexivity|]. split; [vm_compute; reflexivity|].
  exact (operation_ids_stay_unique Sample2.busy sample_busy).
Defined.

Lemma ledger_is_append_only_witness :
  (exists appended,
      repository.balanceLogsColl Sample2.opened2
      = repository.balanceLogsColl Sample2.opened ++ appended)
  /\ (forall chatID, is_Some (repository.GetBalance Sample2.opened chatID) ->
        is_Some (repository.GetBalance Sample2.opened2 chatID)).
Proof. exact (ledger_is_append_only Sample2.opened Sample2.opened2 sample_opened2). Defined.

Lemma balance_after_is_current_balance_witness :
  exists b,
    repository.GetBalance Sample2.opened 1 = Some b
    /\ UpstreamBalance.Balance b = UpstreamBalanceLog.BalanceAfter Sample2.firstEntry.
Proof.
  exact (balance_after_is_current_balance Sample2.opened 1 Sample2.firstEntry
           sample_opened eq_refl).
Defined.

Lemma writes_leave_other_entities_alone_witness :
  repository.GetBalance
    (repository.AdjustBalance 30 Sample2.opened2 1 7 25%float "manual_add" "" "op2").2 2
  = repository.GetBalance Sample2.opened2 2.
Proof.
  assert (Hne : 2 <> 1) by lia.
  exact (proj1 (proj1 (writes_leave_other_entities_alone 30 Sample2.opened2 1 2 7
                         25%float "manual_add" "" "op2" 0%float 0 Hne))).
Defined.

Lemma get_balance_returns_own_record_witness :
  UpstreamBalance.ChatID (UpstreamBalance.mk 1 500%float 0%float 0 10 10) = 1.
Proof.
  exact (get_balance_returns_own_record Sample2.opened 1
           (UpstreamBalance.mk 1 500%float 0%float 0 10 10) sample_opened eq_refl).
Defined.

Lemma sample_other_day :
  Settle.noItemForDay (lib := Sample.library) (Some Sample.otherDayOnly) Sample.may1.
Proof. vm_compute. reflexivity. Qed.

Lemma no_line_item_for_the_day_witness :
  service.parseAmountFromSummary (lib := Sample.library) (Some Sample.otherDayOnly)
    Sample.may1 = 0%float
  /\ exists item,
       service.settleBinding (lib := Sample.library) (pay := Sample.billingOtherDay)
         Sample.bindingA 0 0 Sample.may1 = Go.Ok item
       /\ UpstreamSettlementItem.GrossAmount item = 0%float
       /\ (Spec.finite (UpstreamSettlementItem.RatePercent item) = true ->
           (UpstreamSettlementItem.Deduction item =? 0)%float = true).
Proof.
  exact (no_line_item_for_the_day_is_zero (lib := Sample.library)
           (pay := Sample.billingOtherDay) Sample.bindingA 0 0 Sample.may1
           (Some Sample.otherDayOnly) eq_refl sample_other_day).
Defined.

Lemma first_line_item_witness :
  service.parseAmountFromSummary (lib := Sample.library) (Some Sample.twoOfTheDay)
    Sample.may1 = 1000%float.
Proof.
  refine (first_line_item_of_the_day_decides (lib := Sample.library) Sample.twoOfTheDay
            [Some (paymentservice.mkItem "2024-04-30" "700"); None]
            (paymentservice.mkItem "2024-05-01" "1000")
            [Some (paymentservice.mkItem "2024-05-01" "500")]
            1000%float Sample.may1 eq_refl _ _ _).
  - repeat constructor; vm_compute; reflexivity.
  - vm_compute. reflexivity.
  - vm_compute. reflexivity.
Defined.

Lemma zero_amount_witness :
  service.Add 30 Sample.funded 1 7 (-0)%float
  = ((repository.GetBalance Sample.funded 1,
      service.shouldWarn (repository.GetBalance Sample.funded 1), None), Sample.funded)
  /\ service.Subtract 30 Sample.funded 1 7 (-0)%float
     = ((repository.GetBalance Sample.funded 1,
         service.shouldWarn (repository.GetBalance Sample.funded 1), None), Sample.funded).
Proof. exact (zero_amount_writes_nothing 30 Sample.funded 1 7 (-0)%float eq_refl). Defined.

Lemma should_warn_witness :
  service.shouldWarn (Some (Spec.reading 1 2 80%float)) = true
  <-> (telegram.evaluateBalance 1000 ∅ (Some (Spec.reading 1 2 80%float))).2
      = [Spec.reading 1 2 80%float].
Proof.
  exact (should_warn_matches_first_alert 1000 ∅ (Spec.reading 1 2 80%float) eq_refl).
Defined.

Lemma alerts_only_for_low_balances_witness :
  Watch.monitored (Spec.reading 1 2 80%float) = true
  /\ Watch.isLow (Spec.reading 1 2 80%float) = true
  /\ exists now,
       In (now, Some (Spec.reading 1 2 80%float))
         (Watch.observationsOf
            [telegram.Tick (Go.Ok [(1000, Some (Spec.reading 1 2 80%float))])]).
Proof.
  refine (alerts_only_for_low_balances
            [telegram.Tick (Go.Ok [(1000, Some (Spec.reading 1 2 80%float))])]
            ∅ (Spec.reading 1 2 80%float) _).
  vm_compute. left. reflexivity.
Defined.

(** Entity 1 is marked low and stays under its threshold. *)
Lemma no_alert_while_marked_low_witness :
  let '(states', sent) := telegram.evaluateAll Sample2.stillLow Sample2.markedLow in
  (exists st', states' !! 1 = Some st' /\ telegram.low st' = true)
  /\ forall b, In b sent -> UpstreamBalance.ChatID b <> 1.
Proof.
  refine (no_alert_while_marked_low Sample2.stillLow Sample2.markedLow 1
            (telegram.mkState true 1000 1) eq_refl eq_refl _).
  repeat constructor; intros b Hb Hchat Hmon; simpl in Hb;
    try discriminate; injection Hb as <-; try reflexivity; discriminate.
Defined.

(** Entity 1 under the limit 2 with one alert behind it. *)
Lemma alerts_per_window_bounded_witness :
  let '(states', sent) := telegram.evaluateAll Sample2.upAndDown Sample2.markedLow in
  exists st',
    states' !! 1 = Some st'
    /\ telegram.windowStart st' = 1000
    /\ telegram.sentCount st' = 1 + Z.of_nat (length sent)
    /\ Z.of_nat (length sent) <= 2 - 1.
Proof.
  refine (alerts_per_window_bounded Sample2.upAndDown Sample2.markedLow 1 2
            (telegram.mkState true 1000 1) eq_refl eq_refl _ _ _).
  - simpl. lia.
  - repeat constructor; eexists; repeat split; reflexivity.
  - repeat constructor; vm_compute; reflexivity.
Defined.

Lemma expired_window_alerts_again_witness :
  telegram.evaluateBalance Sample2.muchLater Sample2.exhausted
    (Some (Spec.reading 1 2 60%float))
  = (<[ 1 := telegram.mkState true Sample2.muchLater 1 ]> Sample2.exhausted,
     [Spec.reading 1 2 60%float]).
Proof.
  refine (expired_window_alerts_again Sample2.muchLater Sample2.exhausted
            (Spec.reading 1 2 60%float) (telegram.mkState false 1000 2)
            eq_refl eq_refl _ eq_refl eq_refl).
  vm_compute. discriminate.
Defined.

Lemma watcher_entities_independent_witness :
  (telegram.evaluateBalance 2000 Sample2.markedLow
     (Some (Spec.reading 2 2 60%float))).1 !! 1
  = Sample2.markedLow !! 1.
Proof.
  assert (Hne : 1 <> UpstreamBalance.ChatID (Spec.reading 2 2 60%float))
    by (simpl; lia).
  exact (watcher_entities_independent 2000 Sample2.markedLow
           (Spec.reading 2 2 60%float) 1 Hne).
Defined.

Lemma recovery_rearms_alert_witness :
  telegram.evaluateAll
    [ (2000, Some (Spec.reading 1 2 150%float));
      (3000, Some (Spec.reading 1 2 60%float)) ] Sample2.markedLow
  = (<[ 1 := telegram.mkState true 1000 (1 + 1) ]> Sample2.markedLow,
     [Spec.reading 1 2 60%float]).
Proof.
  refine (recovery_rearms_alert 2000 3000 Sample2.markedLow (telegram.mkState true 1000 1)
            (Spec.reading 1 2 150%float) (Spec.reading 1 2 60%float)
            eq_refl eq_refl eq_refl _ _ eq_refl eq_refl eq_refl eq_refl _).
  - vm_compute. reflexivity.
  - vm_compute. reflexivity.
  - vm_compute. reflexivity.
Defined.

Lemma sample_second_settlement :
  Retry.settlesAt (lib := Sample.library) Sample2.retryEnvs 2 Sample.settledStore
    Sample.group Sample.may1
  = (Go.Ok Sample2.settledTwiceResult, Sample2.settledTwiceStore).
Proof. vm_compute. reflexivity. Qed.

Lemma sample_first_settlement :
  Retry.settlesAt (lib := Sample.library) Sample2.retryEnvs 1 Sample.funded
    Sample.group Sample.may1
  = (Go.Ok Sample.settledResult, Sample.settledStore).
Proof. vm_compute. reflexivity. Qed.

(** The delivery of the first report fails: the balance of 500 is debited
    twice and ends at 400. *)
Lemma failed_delivery_debits_again_witness :
  scheduler.settleForGroup (lib := Sample.library) Sample2.isCancel Sample2.retryEnvs
    Sample.funded Sample.group Sample.may1
  = (None, Sample2.settledTwiceStore, [Sample.settledResult; Sample2.settledTwiceResult])
  /\ repository.balanceLogsColl Sample2.settledTwiceStore
     = repository.balanceLogsColl Sample.funded
       ++ [Retry.entryOf (lib := Sample.library) Sample.group Sample.settledResult;
           Retry.entryOf (lib := Sample.library) Sample.group Sample2.settledTwiceResult]
  /\ UpstreamBalance.Balance (service.Balance Sample2.settledTwiceResult)
     = (UpstreamBalance.Balance (service.Balance Sample.settledResult)
        + - service.Deduction Sample2.settledTwiceResult)%float.
Proof.
  refine (failed_delivery_debits_again (lib := Sample.library) Sample2.isCancel
            Sample2.retryEnvs Sample.funded Sample.group Sample.may1
            Sample.settledResult Sample.settledStore
            Sample2.settledTwiceResult Sample2.settledTwiceStore "bad gateway"
            sample_first_settlement eq_refl _ sample_second_settlement eq_refl).
  vm_compute. reflexivity.
Defined.

Lemma sample_billing_down n :
  exists e,
    (Retry.settlesAt (lib := Sample.library) Sample2.downEnvs n Sample.funded
       Sample.group Sample.may1).1 = Go.Err e
    /\ Sample2.isCancel e = false.
Proof. eexists. split; vm_compute; reflexivity. Qed.

Lemma three_failures_give_up_witness :
  scheduler.settleForGroup (lib := Sample.library) Sample2.isCancel Sample2.downEnvs
    Sample.funded Sample.group Sample.may1
  = (Some "upstream settlement failed after 3 attempts", Sample.funded, []).
Proof.
  exact (three_failures_give_up (lib := Sample.library) Sample2.isCancel Sample2.downEnvs
           Sample.funded Sample.group Sample.may1 (fun n _ => sample_billing_down n)).
Defined.

Lemma sample_cancel_suffix :
  Sample2.isCancel (service.billingError "A" "context canceled") = true.
Proof. vm_compute. reflexivity. Qed.

Lemma cancellation_stops_retries_witness :
  scheduler.settleForGroup (lib := Sample.library) Sample2.isCancel Sample2.cancelEnvs
    Sample.funded Sample.group Sample.may1
  = (Some (service.billingError "A" "context canceled"), Sample.funded, []).
Proof.
  refine (proj1 (cancellation_stops_retries (lib := Sample.library) Sample2.isCancel
                   Sample2.cancelEnvs Sample.funded Sample.group Sample.may1
                   (service.billingError "A" "context canceled") sample_cancel_suffix)
            Sample.funded _).
  vm_compute. reflexivity.
Defined.
